(** * guest/file_manager.go: the guest file-operations proxy

A shallow embedding of [guest.FileManager] and of the packages it
calls into, followed by the properties of [TransferURL] (placeholder
rewriting, the host address cache, thumbprint registration) and of the
eleven forwarding operations. *)

From Stdlib Require Import String Ascii List ZArith Bool.
From stdpp Require Import base option gmap strings.

Import ListNotations.
Open Scope string_scope.

(** ** Go values *)

(** [types.ManagedObjectReference]: a typed handle on a remote object. *)
Record ManagedObjectReference := MOR {
  Type_ : string;
  Value : string
}.

(** An argument of a [fmt.Errorf] call. *)
Inductive fmtArg :=
| ArgString (s : string)
| ArgRef (r : ManagedObjectReference).

(** Go's [error] values: those handed to this package from outside (by
    [url.Parse] or by the remote invocation), and those built here with
    [fmt.Errorf], kept as the format string and its arguments. *)
Inductive error :=
| ExternalError (msg : string)
| Errorf (format : string) (args : list fmtArg).

(** ** net/url and net

    [Hostname], [Port] and [JoinHostPort] as Go's standard library
    defines them, on the bytes of the string. *)

Module strings.

Fixpoint LastIndexByte (s : string) (c : ascii) : option nat :=
  match s with
  | EmptyString => None
  | String a s' =>
      match LastIndexByte s' c with
      | Some i => Some (S i)
      | None => if Ascii.eqb a c then Some 0 else None
      end
  end.

Fixpoint IndexByte (s : string) (c : ascii) : option nat :=
  match s with
  | EmptyString => None
  | String a s' =>
      if Ascii.eqb a c then Some 0 else S <$> IndexByte s' c
  end.

Definition HasPrefix (s p : string) : bool := String.prefix p s.

Fixpoint HasSuffix (s p : string) : bool :=
  if String.eqb s p then true
  else match s with
       | EmptyString => false
       | String _ s' => HasSuffix s' p
       end.

(** [s[i:]] *)
Definition from (i : nat) (s : string) : string :=
  String.substring i (String.length s - i) s.

(** [s[:i]] *)
Definition upto (i : nat) (s : string) : string :=
  String.substring 0 i s.

End strings.

Module url.

(** [url.URL]; the userinfo is kept in its string form. *)
Record URL := {
  Scheme : string;
  Opaque : string;
  User : string;
  Host : string;
  Path : string;
  RawPath : string;
  ForceQuery : bool;
  RawQuery : string;
  Fragment : string;
  RawFragment : string
}.

(** The assignment [u.Host = h]. *)
Definition with_Host (h : string) (u : URL) : URL :=
  {| Scheme := Scheme u; Opaque := Opaque u; User := User u; Host := h;
     Path := Path u; RawPath := RawPath u; ForceQuery := ForceQuery u;
     RawQuery := RawQuery u; Fragment := Fragment u;
     RawFragment := RawFragment u |}.

Definition isDigit (b : ascii) : bool :=
  (48 <=? nat_of_ascii b)%nat && (nat_of_ascii b <=? 57)%nat.

Fixpoint allDigits (s : string) : bool :=
  match s with
  | EmptyString => true
  | String b s' => isDigit b && allDigits s'
  end.

(** Whether [port] is empty or a colon followed by digits only. *)
Definition validOptionalPort (port : string) : bool :=
  match port with
  | EmptyString => true
  | String b rest => Ascii.eqb b ":" && allDigits rest
  end.

(** Splits [host:port]; a host in square brackets loses them. *)
Definition splitHostPort (hostPort : string) : string * string :=
  let '(host, port) :=
    match strings.LastIndexByte hostPort ":" with
    | Some colon =>
        if validOptionalPort (strings.from colon hostPort)
        then (strings.upto colon hostPort, strings.from (S colon) hostPort)
        else (hostPort, "")
    | None => (hostPort, "")
    end in
  let host :=
    if strings.HasPrefix host "[" && strings.HasSuffix host "]"
    then String.substring 1 (String.length host - 2) host
    else host in
  (host, port).

Definition Hostname (u : URL) : string := fst (splitHostPort (Host u)).
Definition Port (u : URL) : string := snd (splitHostPort (Host u)).

End url.

Module net.

(** A host that has a colon is taken for an IPv6 literal and bracketed. *)
Definition JoinHostPort (host port : string) : string :=
  match strings.IndexByte host ":" with
  | Some _ => "[" ++ host ++ "]:" ++ port
  | None => host ++ ":" ++ port
  end.

End net.

(** ** vim25: the types this file exchanges with the remote endpoint *)

(** The payload types the proxy passes through without looking inside,
    and the two it hands to [internal.HostSystemManagementIPs]. *)
Class Payloads := {
  BaseGuestAuthentication : Type;
  BaseGuestFileAttributes : Type;
  FileTransferInformation : Type;
  GuestListFileInfo : Type;
  VirtualNicManagerNetConfigs : Type;   (* []types.VirtualNicManagerNetConfig *)
  IP : Type                             (* net.IP *)
}.

(** The declarations of vim25/types and vim25/mo are not in
    guest/file_manager.go; each record below has the fields that file
    reads, under the names and nesting it reads them by. A Go pointer
    that the file tests against nil is an [option]. *)
Module types.

Record VirtualMachineRuntimeInfo := {
  Host : option ManagedObjectReference      (* *ManagedObjectReference *)
}.

Record HostRuntimeInfo := {
  ConnectionState : string
}.

Record HostConfigSummary := {
  SslThumbprint : string
}.

Record HostListSummary := {
  Config : HostConfigSummary
}.

Record HostVirtualNicManagerInfo `{Payloads} := {
  NetConfig : VirtualNicManagerNetConfigs
}.

Record HostConfigInfo `{Payloads} := {
  VirtualNicManagerInfo : HostVirtualNicManagerInfo
}.

(** The response body of a remote operation that has a return value. *)
Record Response (A : Type) := { Returnval : A }.
Arguments Returnval {A} _.

(** The response body of a remote operation that has none. *)
Inductive EmptyResponse := emptyResponse.

End types.

Module mo.

(** [mo.VirtualMachine], with the fields [TransferURL] reads. *)
Module VirtualMachine.

Record t := {
  Self : ManagedObjectReference;
  Name : string;
  Runtime : types.VirtualMachineRuntimeInfo
}.

End VirtualMachine.

(** [mo.HostSystem], with the fields [TransferURL] reads. *)
Module HostSystem.

Record t `{Payloads} := {
  Self : ManagedObjectReference;
  Name : string;
  Runtime : types.HostRuntimeInfo;
  Summary : types.HostListSummary;
  Config : option types.HostConfigInfo      (* *types.HostConfigInfo *)
}.

End HostSystem.

End mo.

(** ** The remote operations

    Each constructor is one request of the management endpoint, indexed
    by what the Go wrapper gives back: [methods.X] returns the response
    body or an error, [property.Collector.RetrieveOne] fills a managed
    object or returns an error. The arguments of a [methods] request are
    the fields of its [types.X] struct, in the order the proxy sets
    them. *)
Module methods.

Inductive vimE `{Payloads} : Type -> Type :=
| ChangeFileAttributesInGuest
    (This Vm : ManagedObjectReference) (Auth : BaseGuestAuthentication)
    (GuestFilePath : string) (FileAttributes : BaseGuestFileAttributes)
  : vimE (error + types.EmptyResponse)
| CreateTemporaryDirectoryInGuest
    (This Vm : ManagedObjectReference) (Auth : BaseGuestAuthentication)
    (Prefix Suffix DirectoryPath : string)
  : vimE (error + types.Response string)
| CreateTemporaryFileInGuest
    (This Vm : ManagedObjectReference) (Auth : BaseGuestAuthentication)
    (Prefix Suffix DirectoryPath : string)
  : vimE (error + types.Response string)
| DeleteDirectoryInGuest
    (This Vm : ManagedObjectReference) (Auth : BaseGuestAuthentication)
    (DirectoryPath : string) (Recursive : bool)
  : vimE (error + types.EmptyResponse)
| DeleteFileInGuest
    (This Vm : ManagedObjectReference) (Auth : BaseGuestAuthentication)
    (FilePath : string)
  : vimE (error + types.EmptyResponse)
| InitiateFileTransferFromGuest
    (This Vm : ManagedObjectReference) (Auth : BaseGuestAuthentication)
    (GuestFilePath : string)
  : vimE (error + types.Response FileTransferInformation)
| InitiateFileTransferToGuest
    (This Vm : ManagedObjectReference) (Auth : BaseGuestAuthentication)
    (GuestFilePath : string) (FileAttributes : BaseGuestFileAttributes)
    (FileSize : Z) (Overwrite : bool)
  : vimE (error + types.Response string)
| ListFilesInGuest
    (This Vm : ManagedObjectReference) (Auth : BaseGuestAuthentication)
    (FilePath : string) (Index MaxResults : Z) (MatchPattern : string)
  : vimE (error + types.Response GuestListFileInfo)
| MakeDirectoryInGuest
    (This Vm : ManagedObjectReference) (Auth : BaseGuestAuthentication)
    (DirectoryPath : string) (CreateParentDirectories : bool)
  : vimE (error + types.EmptyResponse)
| MoveDirectoryInGuest
    (This Vm : ManagedObjectReference) (Auth : BaseGuestAuthentication)
    (SrcDirectoryPath DstDirectoryPath : string)
  : vimE (error + types.EmptyResponse)
| MoveFileInGuest
    (This Vm : ManagedObjectReference) (Auth : BaseGuestAuthentication)
    (SrcFilePath DstFilePath : string) (Overwrite : bool)
  : vimE (error + types.EmptyResponse)
| RetrieveOne_VirtualMachine
    (obj : ManagedObjectReference) (ps : list string)
  : vimE (error + mo.VirtualMachine.t)
| RetrieveOne_HostSystem
    (obj : ManagedObjectReference) (ps : list string)
  : vimE (error + mo.HostSystem.t).

End methods.

(** A remote call that was made, for the trace. *)
Inductive Call `{Payloads} : Type :=
| Invoked {T : Type} (e : methods.vimE T).

(** Whether a call is a property retrieval. *)
Definition is_retrieval `{Payloads} (k : Call) : bool :=
  match k with
  | Invoked (methods.RetrieveOne_VirtualMachine _ _)
  | Invoked (methods.RetrieveOne_HostSystem _ _) => true
  | Invoked _ => false
  end.

(** ** What the proxy depends on

    [url_Parse] is Go's [url.Parse]; [HostSystemManagementIPs] and
    [IP_String] are [internal.HostSystemManagementIPs] and
    [net.IP.String]; [Getenv] is [os.Getenv] in the environment the
    program was started in. The remote endpoint is a state of any type
    with a transition for every operation: [RoundTrip] answers a request
    and moves the endpoint on. *)
Class Env `{Payloads} := {
  url_Parse : string -> error + url.URL;
  HostSystemManagementIPs : VirtualNicManagerNetConfigs -> list IP;
  IP_String : IP -> string;
  Getenv : string -> string;
  Remote : Type;
  RoundTrip : forall T : Type, methods.vimE T -> Remote -> T * Remote
}.

(** ** vim25.Client *)

Module vim25.

(** Modelled from the spec: [vim25.Client] is declared outside
    guest/file_manager.go. The proxy reads its endpoint URL ([URL()]),
    asks whether the endpoint is a vCenter ([IsVC()]) and registers TLS
    thumbprints with it ([SetThumbprint]); the table of registered
    thumbprints maps a host to the thumbprint to trust for it. *)
Record Client := {
  URL : url.URL;
  IsVC : bool;
  thumbprints : gmap string string
}.

(** Modelled from the spec: [Client.SetThumbprint], which records
    the thumbprint to trust for [host]. *)
Definition SetThumbprint (host thumbprint : string) (c : Client) : Client :=
  {| URL := URL c; IsVC := IsVC c;
     thumbprints := <[host := thumbprint]> (thumbprints c) |}.

End vim25.

(** ** guest.FileManager *)

(** The proxy and what it points to: its own reference, the virtual
    machine, the client behind the pointer [c] and the map [hosts]. The
    methods take the proxy by value, but [c] and [hosts] are references,
    so what a call writes through them is there for the next call: the
    record stands for the proxy together with the two objects it shares
    between its calls. The mutex [mu] only serialises accesses to
    [hosts] and has no sequential content. *)
Record FileManager := {
  ManagedObjectReference_ : ManagedObjectReference;
  vm : ManagedObjectReference;
  c : vim25.Client;
  hosts : gmap string string
}.

Definition Reference (m : FileManager) : ManagedObjectReference :=
  ManagedObjectReference_ m.

(** The assignment [m.hosts[name] = mname]. *)
Definition store_host (name mname : string) (m : FileManager) : FileManager :=
  {| ManagedObjectReference_ := ManagedObjectReference_ m; vm := vm m;
     c := c m; hosts := <[name := mname]> (hosts m) |}.

(** The call [m.c.SetThumbprint(host, thumbprint)]. *)
Definition set_thumbprint (host thumbprint : string) (m : FileManager)
  : FileManager :=
  {| ManagedObjectReference_ := ManagedObjectReference_ m; vm := vm m;
     c := vim25.SetThumbprint host thumbprint (c m); hosts := hosts m |}.

Section Proxy.

Context `{E : Env}.

(** Everything a call can read or change: the proxy with what it
    points to, the remote endpoint, and the remote calls made so
    far. *)
Record World := {
  fm : FileManager;
  remote : Remote;
  calls : list Call
}.

(** Computations over the world. *)
Definition M (A : Type) : Type := World -> A * World.

Definition ret {A} (a : A) : M A := fun w => (a, w).

Definition bind {A B} (x : M A) (k : A -> M B) : M B :=
  fun w => let '(a, w') := x w in k a w'.

Definition receiver : M FileManager := fun w => (fm w, w).

Definition update (f : FileManager -> FileManager) : M unit :=
  fun w => (tt, {| fm := f (fm w); remote := remote w; calls := calls w |}).

(** One round trip to the remote endpoint. *)
Definition invoke {T} (e : methods.vimE T) : M T :=
  fun w =>
    let '(r, rem) := RoundTrip T e (remote w) in
    (r, {| fm := fm w; remote := rem; calls := calls w ++ [Invoked e] |}).

End Proxy.

Notation "x <- e ;; k" := (bind e (fun x => k))
  (at level 100, e at next level, right associativity).
Notation "e ;;; k" := (bind e (fun _ => k))
  (at level 100, right associativity).

Section Operations.

Context `{E : Env}.

Definition ChangeFileAttributes (auth : BaseGuestAuthentication)
    (guestFilePath : string) (fileAttributes : BaseGuestFileAttributes)
  : M (option error) :=
  m <- receiver ;;
  r <- invoke (methods.ChangeFileAttributesInGuest
                 (Reference m) (vm m) auth guestFilePath fileAttributes) ;;
  match r with
  | inl err => ret (Some err)
  | inr _ => ret None
  end.

Definition CreateTemporaryDirectory (auth : BaseGuestAuthentication)
    (prefix suffix path : string)
  : M (string * option error) :=
  m <- receiver ;;
  r <- invoke (methods.CreateTemporaryDirectoryInGuest
                 (Reference m) (vm m) auth prefix suffix path) ;;
  match r with
  | inl err => ret ("", Some err)
  | inr res => ret (types.Returnval res, None)
  end.

Definition CreateTemporaryFile (auth : BaseGuestAuthentication)
    (prefix suffix path : string)
  : M (string * option error) :=
  m <- receiver ;;
  r <- invoke (methods.CreateTemporaryFileInGuest
                 (Reference m) (vm m) auth prefix suffix path) ;;
  match r with
  | inl err => ret ("", Some err)
  | inr res => ret (types.Returnval res, None)
  end.

Definition DeleteDirectory (auth : BaseGuestAuthentication)
    (directoryPath : string) (recursive : bool)
  : M (option error) :=
  m <- receiver ;;
  r <- invoke (methods.DeleteDirectoryInGuest
                 (Reference m) (vm m) auth directoryPath recursive) ;;
  match r with
  | inl err => ret (Some err)
  | inr _ => ret None
  end.

Definition DeleteFile (auth : BaseGuestAuthentication) (filePath : string)
  : M (option error) :=
  m <- receiver ;;
  r <- invoke (methods.DeleteFileInGuest
                 (Reference m) (vm m) auth filePath) ;;
  match r with
  | inl err => ret (Some err)
  | inr _ => ret None
  end.

Definition InitiateFileTransferFromGuest (auth : BaseGuestAuthentication)
    (guestFilePath : string)
  : M (option FileTransferInformation * option error) :=
  m <- receiver ;;
  r <- invoke (methods.InitiateFileTransferFromGuest
                 (Reference m) (vm m) auth guestFilePath) ;;
  match r with
  | inl err => ret (None, Some err)
  | inr res => ret (Some (types.Returnval res), None)
  end.

Definition InitiateFileTransferToGuest (auth : BaseGuestAuthentication)
    (guestFilePath : string) (fileAttributes : BaseGuestFileAttributes)
    (fileSize : Z) (overwrite : bool)
  : M (string * option error) :=
  m <- receiver ;;
  r <- invoke (methods.InitiateFileTransferToGuest
                 (Reference m) (vm m) auth guestFilePath fileAttributes
                 fileSize overwrite) ;;
  match r with
  | inl err => ret ("", Some err)
  | inr res => ret (types.Returnval res, None)
  end.

Definition ListFiles (auth : BaseGuestAuthentication) (filePath : string)
    (index maxResults : Z) (matchPattern : string)
  : M (option GuestListFileInfo * option error) :=
  m <- receiver ;;
  r <- invoke (methods.ListFilesInGuest
                 (Reference m) (vm m) auth filePath index maxResults
                 matchPattern) ;;
  match r with
  | inl err => ret (None, Some err)
  | inr res => ret (Some (types.Returnval res), None)
  end.

Definition MakeDirectory (auth : BaseGuestAuthentication)
    (directoryPath : string) (createParentDirectories : bool)
  : M (option error) :=
  m <- receiver ;;
  r <- invoke (methods.MakeDirectoryInGuest
                 (Reference m) (vm m) auth directoryPath
                 createParentDirectories) ;;
  match r with
  | inl err => ret (Some err)
  | inr _ => ret None
  end.

Definition MoveDirectory (auth : BaseGuestAuthentication)
    (srcDirectoryPath dstDirectoryPath : string)
  : M (option error) :=
  m <- receiver ;;
  r <- invoke (methods.MoveDirectoryInGuest
                 (Reference m) (vm m) auth srcDirectoryPath
                 dstDirectoryPath) ;;
  match r with
  | inl err => ret (Some err)
  | inr _ => ret None
  end.

Definition MoveFile (auth : BaseGuestAuthentication)
    (srcFilePath dstFilePath : string) (overwrite : bool)
  : M (option error) :=
  m <- receiver ;;
  r <- invoke (methods.MoveFileInGuest
                 (Reference m) (vm m) auth srcFilePath dstFilePath
                 overwrite) ;;
  match r with
  | inl err => ret (Some err)
  | inr _ => ret None
  end.

(** The properties [TransferURL] asks of the runtime host. *)
Definition host_props : list string :=
  [ "name";
    "runtime.connectionState";
    "summary.config.sslThumbprint";
    "config.virtualNicManagerInfo.netConfig" ].

(** escape hatch to disable the preference to use ESX host management
    IP for guest file transfer *)
Definition useGuestTransferIP : bool :=
  negb (String.eqb (Getenv "GOVMOMI_USE_GUEST_TRANSFER_IP") "false").

Definition config_nil_format : string :=
  "guest TransferURL failed for vm %q (%s): host %q (%s) config==nil, connectionState==%s".

(** [TransferURL] rewrites the url with a valid hostname and adds the
    host's thumbprint. *)
Definition TransferURL (u : string) : M (option url.URL * option error) :=
  match url_Parse u with
  | inl err => ret (None, Some err)
  | inr turl =>
    m <- receiver ;;
    let turl :=
      if String.eqb (url.Hostname turl) "*"
      then url.with_Host (url.Host (vim25.URL (c m))) turl
      else turl in
    if negb (vim25.IsVC (c m)) then ret (Some turl, None) else
    let name := url.Hostname turl in
    let port := url.Port turl in
    match hosts m !! name with
    | Some mname =>
        ret (Some (url.with_Host (net.JoinHostPort mname port) turl), None)
    | None =>
      r <- invoke (methods.RetrieveOne_VirtualMachine
                     (vm m) ["name"; "runtime.host"]) ;;
      match r with
      | inl err => ret (None, Some err)
      | inr vm_ =>
        match types.Host (mo.VirtualMachine.Runtime vm_) with
        | None => ret (Some turl, None)
        | Some hostref =>
          r <- invoke (methods.RetrieveOne_HostSystem hostref host_props) ;;
          match r with
          | inl err => ret (None, Some err)
          | inr host =>
            match mo.HostSystem.Config host with
            | None =>
                ret (None,
                     Some (Errorf config_nil_format
                             [ ArgString (mo.VirtualMachine.Name vm_);
                               ArgRef (mo.VirtualMachine.Self vm_);
                               ArgString (mo.HostSystem.Name host);
                               ArgRef (mo.HostSystem.Self host);
                               ArgString (types.ConnectionState
                                            (mo.HostSystem.Runtime host)) ]))
            | Some config =>
              let ips := HostSystemManagementIPs
                           (types.NetConfig
                              (types.VirtualNicManagerInfo config)) in
              name <- (match (if (length ips =? 1)%nat && useGuestTransferIP
                              then head ips else None) with
                       | Some ip =>
                           let mname := IP_String ip in
                           update (store_host name mname) ;;;
                           ret mname
                       | None => ret name
                       end) ;;
              let turl := url.with_Host (net.JoinHostPort name port) turl in
              update (set_thumbprint
                        (url.Host turl)
                        (types.SslThumbprint
                           (types.Config (mo.HostSystem.Summary host)))) ;;;
              ret (Some turl, None)
            end
          end
        end
      end
    end
  end.

End Operations.

(** ** Sequences of operations *)

Section Runs.

Context `{E : Env}.

(** The eleven operations that forward one request. *)
Inductive FileOp :=
| OpChangeFileAttributes (auth : BaseGuestAuthentication)
    (guestFilePath : string) (fileAttributes : BaseGuestFileAttributes)
| OpCreateTemporaryDirectory (auth : BaseGuestAuthentication)
    (prefix suffix path : string)
| OpCreateTemporaryFile (auth : BaseGuestAuthentication)
    (prefix suffix path : string)
| OpDeleteDirectory (auth : BaseGuestAuthentication)
    (directoryPath : string) (recursive : bool)
| OpDeleteFile (auth : BaseGuestAuthentication) (filePath : string)
| OpInitiateFileTransferFromGuest (auth : BaseGuestAuthentication)
    (guestFilePath : string)
| OpInitiateFileTransferToGuest (auth : BaseGuestAuthentication)
    (guestFilePath : string) (fileAttributes : BaseGuestFileAttributes)
    (fileSize : Z) (overwrite : bool)
| OpListFiles (auth : BaseGuestAuthentication) (filePath : string)
    (index maxResults : Z) (matchPattern : string)
| OpMakeDirectory (auth : BaseGuestAuthentication)
    (directoryPath : string) (createParentDirectories : bool)
| OpMoveDirectory (auth : BaseGuestAuthentication)
    (srcDirectoryPath dstDirectoryPath : string)
| OpMoveFile (auth : BaseGuestAuthentication)
    (srcFilePath dstFilePath : string) (overwrite : bool).

(** Every operation of the proxy. *)
Inductive Op :=
| OpFile (o : FileOp)
| OpTransferURL (u : string).

(** The world after a forwarding operation. *)
Definition run_file (o : FileOp) (w : World) : World :=
  match o with
  | OpChangeFileAttributes a p f => snd (ChangeFileAttributes a p f w)
  | OpCreateTemporaryDirectory a p s d =>
      snd (CreateTemporaryDirectory a p s d w)
  | OpCreateTemporaryFile a p s d => snd (CreateTemporaryFile a p s d w)
  | OpDeleteDirectory a d r => snd (DeleteDirectory a d r w)
  | OpDeleteFile a p => snd (DeleteFile a p w)
  | OpInitiateFileTransferFromGuest a p =>
      snd (InitiateFileTransferFromGuest a p w)
  | OpInitiateFileTransferToGuest a p f n o =>
      snd (InitiateFileTransferToGuest a p f n o w)
  | OpListFiles a p i n pat => snd (ListFiles a p i n pat w)
  | OpMakeDirectory a d cp => snd (MakeDirectory a d cp w)
  | OpMoveDirectory a s d => snd (MoveDirectory a s d w)
  | OpMoveFile a s d o => snd (MoveFile a s d o w)
  end.

Definition run (o : Op) (w : World) : World :=
  match o with
  | OpFile f => run_file f w
  | OpTransferURL u => snd (TransferURL u w)
  end.

(** The world after a sequence of operations, first to last. *)
Definition run_all (os : list Op) (w : World) : World :=
  fold_left (fun w o => run o w) os w.

End Runs.

(** ** The vocabulary of the properties *)

Section Specification.

Context `{E : Env}.

(** The URL after the placeholder step: the host of a URL whose
    hostname is "*" is the host of the client's endpoint URL. *)
Definition rewritten (m : FileManager) (turl : url.URL) : url.URL :=
  if String.eqb (url.Hostname turl) "*"
  then url.with_Host (url.Host (vim25.URL (c m))) turl
  else turl.

(** The world after remote calls [ks] that left the endpoint in [r]. *)
Definition after (ks : list Call) (r : Remote) (m : FileManager) (w : World)
  : World :=
  {| fm := m; remote := r; calls := calls w ++ ks |}.

Definition retrieve_vm (m : FileManager)
  : methods.vimE (error + mo.VirtualMachine.t) :=
  methods.RetrieveOne_VirtualMachine (vm m) ["name"; "runtime.host"].

Definition retrieve_host (hostref : ManagedObjectReference)
  : methods.vimE (error + mo.HostSystem.t) :=
  methods.RetrieveOne_HostSystem hostref host_props.

(** The management addresses of a host configuration. *)
Definition management_ips (config : types.HostConfigInfo) : list IP :=
  HostSystemManagementIPs
    (types.NetConfig (types.VirtualNicManagerInfo config)).

Definition thumbprint_of (host : mo.HostSystem.t) : string :=
  types.SslThumbprint (types.Config (mo.HostSystem.Summary host)).

(** The error of a host that has no configuration. *)
Definition config_nil_error (vm_ : mo.VirtualMachine.t)
    (host : mo.HostSystem.t) : error :=
  Errorf config_nil_format
    [ ArgString (mo.VirtualMachine.Name vm_);
      ArgRef (mo.VirtualMachine.Self vm_);
      ArgString (mo.HostSystem.Name host);
      ArgRef (mo.HostSystem.Self host);
      ArgString (types.ConnectionState (mo.HostSystem.Runtime host)) ].

(** The address the proxy prefers to the inventory name, if any: the
    one management address of the host, unless the preference is
    switched off. *)
Definition preferred (config : types.HostConfigInfo) : option IP :=
  if (length (management_ips config) =? 1)%nat && useGuestTransferIP
  then head (management_ips config) else None.

(** The name the URL ends up with, and the proxy after the cache
    update, if there is one. *)
Definition resolved_name (name : string) (config : types.HostConfigInfo)
  : string :=
  match preferred config with
  | Some ip => IP_String ip
  | None => name
  end.

Definition cached (name : string) (config : types.HostConfigInfo)
    (m : FileManager) : FileManager :=
  match preferred config with
  | Some ip => store_host name (IP_String ip) m
  | None => m
  end.

(** The results and worlds a call [TransferURL u] can leave from world
    [w], one constructor for each way out of the function; the answers
    of the endpoint past the cache miss are left open. *)
Inductive outcome (u : string) (w : World)
  : (option url.URL * option error) * World -> Prop :=
| out_parse_error err :
    url_Parse u = inl err ->
    outcome u w ((None, Some err), w)
| out_esx turl :
    url_Parse u = inr turl ->
    vim25.IsVC (c (fm w)) = false ->
    outcome u w ((Some (rewritten (fm w) turl), None), w)
| out_hit turl mname :
    url_Parse u = inr turl ->
    vim25.IsVC (c (fm w)) = true ->
    hosts (fm w) !! url.Hostname (rewritten (fm w) turl) = Some mname ->
    outcome u w
      ((Some (url.with_Host
                (net.JoinHostPort mname (url.Port (rewritten (fm w) turl)))
                (rewritten (fm w) turl)), None), w)
| out_failed turl err ks r :
    url_Parse u = inr turl ->
    vim25.IsVC (c (fm w)) = true ->
    hosts (fm w) !! url.Hostname (rewritten (fm w) turl) = None ->
    outcome u w ((None, Some err), after ks r (fm w) w)
| out_no_host turl ks r :
    url_Parse u = inr turl ->
    vim25.IsVC (c (fm w)) = true ->
    hosts (fm w) !! url.Hostname (rewritten (fm w) turl) = None ->
    outcome u w ((Some (rewritten (fm w) turl), None), after ks r (fm w) w)
| out_resolved turl host config ks r :
    url_Parse u = inr turl ->
    vim25.IsVC (c (fm w)) = true ->
    hosts (fm w) !! url.Hostname (rewritten (fm w) turl) = None ->
    let turl1 := rewritten (fm w) turl in
    let h := net.JoinHostPort
               (resolved_name (url.Hostname turl1) config)
               (url.Port turl1) in
    outcome u w
      ((Some (url.with_Host h turl1), None),
       after ks r
         (set_thumbprint h (thumbprint_of host)
            (cached (url.Hostname turl1) config (fm w))) w).

(** What [TransferURL] does once the placeholder step has left [turl1],
    return by return: connected to an ESX host it returns [turl1]; on
    vCenter it looks the hostname of [turl1] up in the cache and on a
    hit returns the cached address joined with the port of [turl1]; on
    a miss it returns [turl1] when the virtual machine has no runtime
    host, and otherwise a name, the hostname of [turl1] or the one
    management address, joined with the port of [turl1], caching under
    the hostname of [turl1]; and in every case it does what it does on a
    string that parses to [turl1] in the first place. *)
Definition continues_with (u : string) (w : World) (turl1 : url.URL) : Prop :=
  (vim25.IsVC (c (fm w)) = false ->
     TransferURL u w = ((Some turl1, None), w)) /\
  (forall mname,
     vim25.IsVC (c (fm w)) = true ->
     hosts (fm w) !! url.Hostname turl1 = Some mname ->
     TransferURL u w =
       ((Some (url.with_Host (net.JoinHostPort mname (url.Port turl1)) turl1),
         None), w)) /\
  (forall vm_ r1,
     vim25.IsVC (c (fm w)) = true ->
     hosts (fm w) !! url.Hostname turl1 = None ->
     RoundTrip _ (retrieve_vm (fm w)) (remote w) = (inr vm_, r1) ->
     types.Host (mo.VirtualMachine.Runtime vm_) = None ->
     fst (TransferURL u w) = (Some turl1, None)) /\
  (forall vm_ r1 hostref host r2 config,
     vim25.IsVC (c (fm w)) = true ->
     hosts (fm w) !! url.Hostname turl1 = None ->
     RoundTrip _ (retrieve_vm (fm w)) (remote w) = (inr vm_, r1) ->
     types.Host (mo.VirtualMachine.Runtime vm_) = Some hostref ->
     RoundTrip _ (retrieve_host hostref) r1 = (inr host, r2) ->
     mo.HostSystem.Config host = Some config ->
     exists name,
       (name = url.Hostname turl1 \/
        exists ip,
          HostSystemManagementIPs
            (types.NetConfig (types.VirtualNicManagerInfo config)) = [ip] /\
          name = IP_String ip) /\
       fst (TransferURL u w) =
         (Some (url.with_Host (net.JoinHostPort name (url.Port turl1)) turl1),
          None) /\
       (hosts (fm (snd (TransferURL u w))) = hosts (fm w) \/
        hosts (fm (snd (TransferURL u w))) =
          <[url.Hostname turl1 := name]> (hosts (fm w)))) /\
  (forall u1, url_Parse u1 = inr turl1 ->
     TransferURL u w = TransferURL u1 w).

(** What a wrapper makes of the answer to its request. *)
Definition error_only {A} (a : error + A) : option error :=
  match a with
  | inl err => Some err
  | inr _ => None
  end.

Definition string_or_error (a : error + types.Response string)
  : string * option error :=
  match a with
  | inl err => ("", Some err)
  | inr res => (types.Returnval res, None)
  end.

Definition pointer_or_error {A} (a : error + types.Response A)
  : option A * option error :=
  match a with
  | inl err => (None, Some err)
  | inr res => (Some (types.Returnval res), None)
  end.

(** [op] sends the one request [req m], where [m] is the proxy, and
    returns [unwrap] of the answer; the proxy is left as it was. *)
Definition forwards {T A} (op : M A) (req : FileManager -> methods.vimE T)
    (unwrap : T -> A) : Prop :=
  forall w : World,
    let e := req (fm w) in
    fst (op w) = unwrap (fst (RoundTrip T e (remote w))) /\
    snd (op w) = after [Invoked e] (snd (RoundTrip T e (remote w))) (fm w) w.

(** The frame the specification gives a call: nothing but the cache
    differs between the proxy before and after. *)
Definition only_cache_changed (w w' : World) : Prop :=
  ManagedObjectReference_ (fm w') = ManagedObjectReference_ (fm w) /\
  vm (fm w') = vm (fm w) /\
  c (fm w') = c (fm w).

End Specification.

(** ** The ways through [TransferURL], with what decides each *)

Section Ways.

Context `{E : Env}.

(** One constructor for each [return] of [TransferURL], in the order of
    the source, with the tests that lead to it, the answers of the
    endpoint and the calls made on the way. *)
Inductive branch (u : string) (w : World)
  : (option url.URL * option error) * World -> Prop :=
| br_parse_error err :
    url_Parse u = inl err ->
    branch u w ((None, Some err), w)
| br_esx turl :
    url_Parse u = inr turl ->
    vim25.IsVC (c (fm w)) = false ->
    branch u w ((Some (rewritten (fm w) turl), None), w)
| br_hit turl mname :
    url_Parse u = inr turl ->
    vim25.IsVC (c (fm w)) = true ->
    hosts (fm w) !! url.Hostname (rewritten (fm w) turl) = Some mname ->
    branch u w
      ((Some (url.with_Host
                (net.JoinHostPort mname (url.Port (rewritten (fm w) turl)))
                (rewritten (fm w) turl)), None), w)
| br_vm_error turl err r1 :
    url_Parse u = inr turl ->
    vim25.IsVC (c (fm w)) = true ->
    hosts (fm w) !! url.Hostname (rewritten (fm w) turl) = None ->
    RoundTrip _ (retrieve_vm (fm w)) (remote w) = (inl err, r1) ->
    branch u w
      ((None, Some err), after [Invoked (retrieve_vm (fm w))] r1 (fm w) w)
| br_no_host turl vm_ r1 :
    url_Parse u = inr turl ->
    vim25.IsVC (c (fm w)) = true ->
    hosts (fm w) !! url.Hostname (rewritten (fm w) turl) = None ->
    RoundTrip _ (retrieve_vm (fm w)) (remote w) = (inr vm_, r1) ->
    types.Host (mo.VirtualMachine.Runtime vm_) = None ->
    branch u w
      ((Some (rewritten (fm w) turl), None),
       after [Invoked (retrieve_vm (fm w))] r1 (fm w) w)
| br_host_error turl vm_ r1 hostref err r2 :
    url_Parse u = inr turl ->
    vim25.IsVC (c (fm w)) = true ->
    hosts (fm w) !! url.Hostname (rewritten (fm w) turl) = None ->
    RoundTrip _ (retrieve_vm (fm w)) (remote w) = (inr vm_, r1) ->
    types.Host (mo.VirtualMachine.Runtime vm_) = Some hostref ->
    RoundTrip _ (retrieve_host hostref) r1 = (inl err, r2) ->
    branch u w
      ((None, Some err),
       after [Invoked (retrieve_vm (fm w)); Invoked (retrieve_host hostref)]
         r2 (fm w) w)
| br_config_nil turl vm_ r1 hostref host r2 :
    url_Parse u = inr turl ->
    vim25.IsVC (c (fm w)) = true ->
    hosts (fm w) !! url.Hostname (rewritten (fm w) turl) = None ->
    RoundTrip _ (retrieve_vm (fm w)) (remote w) = (inr vm_, r1) ->
    types.Host (mo.VirtualMachine.Runtime vm_) = Some hostref ->
    RoundTrip _ (retrieve_host hostref) r1 = (inr host, r2) ->
    mo.HostSystem.Config host = None ->
    branch u w
      ((None, Some (config_nil_error vm_ host)),
       after [Invoked (retrieve_vm (fm w)); Invoked (retrieve_host hostref)]
         r2 (fm w) w)
| br_resolved turl vm_ r1 hostref host r2 config :
    url_Parse u = inr turl ->
    vim25.IsVC (c (fm w)) = true ->
    hosts (fm w) !! url.Hostname (rewritten (fm w) turl) = None ->
    RoundTrip _ (retrieve_vm (fm w)) (remote w) = (inr vm_, r1) ->
    types.Host (mo.VirtualMachine.Runtime vm_) = Some hostref ->
    RoundTrip _ (retrieve_host hostref) r1 = (inr host, r2) ->
    mo.HostSystem.Config host = Some config ->
    branch u w
      ((Some (url.with_Host
                (net.JoinHostPort
                   (resolved_name (url.Hostname (rewritten (fm w) turl)) config)
                   (url.Port (rewritten (fm w) turl)))
                (rewritten (fm w) turl)), None),
       after [Invoked (retrieve_vm (fm w)); Invoked (retrieve_host hostref)]
         r2
         (set_thumbprint
            (net.JoinHostPort
               (resolved_name (url.Hostname (rewritten (fm w) turl)) config)
               (url.Port (rewritten (fm w) turl)))
            (thumbprint_of host)
            (cached (url.Hostname (rewritten (fm w) turl)) config (fm w))) w).

(** A name in square brackets that has no colon: the one kind of name
    that [net.JoinHostPort] followed by [Hostname] does not give back. *)
Definition bracketed_plain (name : string) : bool :=
  match strings.IndexByte name ":" with
  | Some _ => false
  | None => strings.HasPrefix name "[" && strings.HasSuffix name "]"
  end.

End Ways.

(** ** A small deployment to run the proxy on *)

Module Demo.

#[export] Instance payloads : Payloads := {|
  BaseGuestAuthentication := string;
  BaseGuestFileAttributes := string;
  FileTransferInformation := string;
  GuestListFileInfo := list string;
  VirtualNicManagerNetConfigs := list (string * string);
  IP := string
|}.

(** A parser for the URLs of the examples, [scheme://host] with an
    optional path and query; [url.Parse] accepts more. *)
Definition Parse (u : string) : error + url.URL :=
  match String.index 0 "://" u with
  | Some i =>
      let rest := strings.from (i + 3) u in
      let q := default (String.length rest) (strings.IndexByte rest "?") in
      let query := strings.from (S q) rest in
      let rest := strings.upto q rest in
      let j := default (String.length rest) (strings.IndexByte rest "/") in
      inr {| url.Scheme := strings.upto i u; url.Opaque := "";
             url.User := ""; url.Host := strings.upto j rest;
             url.Path := strings.from j rest; url.RawPath := "";
             url.ForceQuery := false; url.RawQuery := query;
             url.Fragment := ""; url.RawFragment := "" |}
  | None => inl (ExternalError "parse: missing protocol scheme")
  end.

(** The addresses of the virtual NICs whose type is "management". *)
Definition ManagementIPs (cfg : list (string * string)) : list string :=
  snd <$> filter (fun p => fst p = "management") cfg.

(** An endpoint that answers every request the same way each time. *)
Record Endpoint := {
  the_vm : error + mo.VirtualMachine.t;
  the_host : error + mo.HostSystem.t;
  down : bool
}.

Definition fault : error := ExternalError "ServerFaultCode: unavailable".

Definition answer {A} (r : Endpoint) (a : A) : error + A :=
  if down r then inl fault else inr a.

Definition serve (T : Type) (e : methods.vimE T) (r : Endpoint)
  : T * Endpoint :=
  match e in methods.vimE T return T * Endpoint with
  | methods.ChangeFileAttributesInGuest _ _ _ _ _ =>
      (answer r types.emptyResponse, r)
  | methods.CreateTemporaryDirectoryInGuest _ _ _ p s d =>
      (answer r {| types.Returnval := d ++ "/" ++ p ++ "dir" ++ s |}, r)
  | methods.CreateTemporaryFileInGuest _ _ _ p s d =>
      (answer r {| types.Returnval := d ++ "/" ++ p ++ "file" ++ s |}, r)
  | methods.DeleteDirectoryInGuest _ _ _ _ _ =>
      (answer r types.emptyResponse, r)
  | methods.DeleteFileInGuest _ _ _ _ => (answer r types.emptyResponse, r)
  | methods.InitiateFileTransferFromGuest _ _ _ p =>
      (answer r {| types.Returnval := "https://*:443/guestFile?id=1" |}, r)
  | methods.InitiateFileTransferToGuest _ _ _ _ _ _ _ =>
      (answer r {| types.Returnval := "https://*:443/guestFile?id=2" |}, r)
  | methods.ListFilesInGuest _ _ _ p _ _ _ =>
      (answer r {| types.Returnval := [p] |}, r)
  | methods.MakeDirectoryInGuest _ _ _ _ _ =>
      (answer r types.emptyResponse, r)
  | methods.MoveDirectoryInGuest _ _ _ _ _ =>
      (answer r types.emptyResponse, r)
  | methods.MoveFileInGuest _ _ _ _ _ _ =>
      (answer r types.emptyResponse, r)
  | methods.RetrieveOne_VirtualMachine _ _ => (the_vm r, r)
  | methods.RetrieveOne_HostSystem _ _ => (the_host r, r)
  end.

(** The environment variable is unset. *)
#[export] Instance env : Env := {|
  url_Parse := Parse;
  HostSystemManagementIPs := ManagementIPs;
  IP_String := id;
  Getenv := fun _ => "";
  Remote := Endpoint;
  RoundTrip := serve
|}.

(** The same deployment started with
    [GOVMOMI_USE_GUEST_TRANSFER_IP=false]. *)
Definition env_off : Env := {|
  url_Parse := Parse;
  HostSystemManagementIPs := ManagementIPs;
  IP_String := id;
  Getenv := fun k =>
    if String.eqb k "GOVMOMI_USE_GUEST_TRANSFER_IP" then "false" else "";
  Remote := Endpoint;
  RoundTrip := serve
|}.

Definition vm1 : mo.VirtualMachine.t := {|
  mo.VirtualMachine.Self := MOR "VirtualMachine" "vm-12";
  mo.VirtualMachine.Name := "web01";
  mo.VirtualMachine.Runtime :=
    {| types.Host := Some (MOR "HostSystem" "host-9") |}
|}.

Definition vm_off : mo.VirtualMachine.t := {|
  mo.VirtualMachine.Self := MOR "VirtualMachine" "vm-12";
  mo.VirtualMachine.Name := "web01";
  mo.VirtualMachine.Runtime := {| types.Host := None |}
|}.

Definition config_of (n : list (string * string)) : types.HostConfigInfo :=
  {| types.VirtualNicManagerInfo := {| types.NetConfig := n |} |}.

Definition host_with (cfg : option (list (string * string)))
  : mo.HostSystem.t := {|
  mo.HostSystem.Self := MOR "HostSystem" "host-9";
  mo.HostSystem.Name := "esx1.example.com";
  mo.HostSystem.Runtime := {| types.ConnectionState := "connected" |};
  mo.HostSystem.Summary :=
    {| types.Config := {| types.SslThumbprint := "AA:BB:CC" |} |};
  mo.HostSystem.Config := config_of <$> cfg
|}.

Definition one_nic : list (string * string) :=
  [("management", "10.0.0.7"); ("vmotion", "10.0.1.7")].

Definition two_nics : list (string * string) :=
  [("management", "10.0.0.7"); ("management", "192.168.0.7")].

Definition client (vc : bool) (host : string) : vim25.Client := {|
  vim25.URL := {| url.Scheme := "https"; url.Opaque := ""; url.User := "";
                  url.Host := host; url.Path := "/sdk"; url.RawPath := "";
                  url.ForceQuery := false; url.RawQuery := "";
                  url.Fragment := ""; url.RawFragment := "" |};
  vim25.IsVC := vc;
  vim25.thumbprints := ∅
|}.

Definition manager (vc : bool) (host : string) (cache : gmap string string)
  : FileManager := {|
  ManagedObjectReference_ := MOR "GuestFileManager" "guestOperationsFileManager";
  vm := MOR "VirtualMachine" "vm-12";
  c := client vc host;
  hosts := cache
|}.

Definition world `{E : Env} (m : FileManager) (r : Remote) : World :=
  {| fm := m; remote := r; calls := [] |}.

Definition endpoint (v : mo.VirtualMachine.t)
    (cfg : option (list (string * string))) : Endpoint :=
  {| the_vm := inr v; the_host := inr (host_with cfg); down := false |}.

(** The URL of a transfer, as the endpoint hands it out for [host]. *)
Definition transfer_url (host : string) : url.URL :=
  {| url.Scheme := "https"; url.Opaque := ""; url.User := "";
     url.Host := host; url.Path := "/guestFile"; url.RawPath := "";
     url.ForceQuery := false; url.RawQuery := "id=1";
     url.Fragment := ""; url.RawFragment := "" |}.

(** The strings [InitiateFileTransferFromGuest] returns: from an ESX
    host, and from vCenter for a virtual machine that runs on esx1. *)
Definition star_url : string := "https://*:443/guestFile?id=1".
Definition esx1_url : string := "https://esx1.example.com:443/guestFile?id=1".

(** Connected to the ESX host itself, through a forwarded port. *)
Definition w_esx : World :=
  world (manager false "esx9.example.com:8443" ∅) (endpoint vm1 (Some one_nic)).

(** Connected to vCenter, nothing cached yet; the runtime host has
    [cfg] for its virtual NICs, or no configuration at all. *)
Definition w_vc (v : mo.VirtualMachine.t)
    (cfg : option (list (string * string))) : World :=
  world (manager true "vc.example.com:443" ∅) (endpoint v cfg).

(** Connected to vCenter, the address of esx1 already in the cache. *)
Definition w_cached : World :=
  world (manager true "vc.example.com:443"
           {[ "esx1.example.com" := "10.0.0.7" ]})
        (endpoint vm1 (Some one_nic)).

(** The same as [w_vc] in the deployment that has the preference
    switched off. *)
Definition w_vc_off (cfg : option (list (string * string)))
  : @World payloads env_off :=
  @world payloads env_off (manager true "vc.example.com:443" ∅)
    (endpoint vm1 cfg).

(** Connected to vCenter through a forwarded port, with the address of
    the vCenter host itself in the cache. *)
Definition w_vc_star : World :=
  world (manager true "vc.example.com:8443"
           {[ "vc.example.com" := "10.0.0.9" ]})
        (endpoint vm1 (Some one_nic)).

(** Some operations to run between two calls of [TransferURL]. *)
Definition in_between : list Op :=
  [ OpFile (OpMakeDirectory "root:secret" "/tmp/upload" true);
    OpTransferURL "https://esx2.example.com:443/guestFile?id=2";
    OpFile (OpDeleteFile "root:secret" "/tmp/upload/old") ].

End Demo.

(** ** The host and port of a URL *)

Example Hostname_star :
  url.splitHostPort "*:443" = ("*", "443").
Proof. reflexivity. Qed.

Example Hostname_v6 :
  url.splitHostPort "[fe80::1]:902" = ("fe80::1", "902").
Proof. reflexivity. Qed.

Example Hostname_noport :
  url.splitHostPort "esx1.example.com" = ("esx1.example.com", "").
Proof. reflexivity. Qed.

Example JoinHostPort_v4 :
  net.JoinHostPort "10.0.0.7" "443" = "10.0.0.7:443".
Proof. reflexivity. Qed.

Example JoinHostPort_v6 :
  net.JoinHostPort "fe80::1" "902" = "[fe80::1]:902".
Proof. reflexivity. Qed.

(** ** What [TransferURL] does, branch by branch *)

Section Branches.

Context `{E : Env}.

Lemma with_Host_Host h u : url.Host (url.with_Host h u) = h.
Proof. reflexivity. Qed.

Lemma with_Host_twice h h' u :
  url.with_Host h (url.with_Host h' u) = url.with_Host h u.
Proof. reflexivity. Qed.

Lemma world_eta (w : World) :
  {| fm := fm w; remote := remote w; calls := calls w |} = w.
Proof. by destruct w. Qed.

Lemma after_nil (w : World) : after [] (remote w) (fm w) w = w.
Proof. unfold after. rewrite app_nil_r. apply world_eta. Qed.

Lemma TransferURL_parse_error u err w :
  url_Parse u = inl err ->
  TransferURL u w = ((None, Some err), w).
Proof. intros Hp. unfold TransferURL. by rewrite Hp. Qed.

Lemma TransferURL_esx u turl w :
  url_Parse u = inr turl ->
  vim25.IsVC (c (fm w)) = false ->
  TransferURL u w = ((Some (rewritten (fm w) turl), None), w).
Proof.
  intros Hp Hvc. unfold TransferURL, bind, receiver, ret.
  by rewrite Hp, Hvc.
Qed.

Lemma TransferURL_hit u turl w mname :
  url_Parse u = inr turl ->
  vim25.IsVC (c (fm w)) = true ->
  hosts (fm w) !! url.Hostname (rewritten (fm w) turl) = Some mname ->
  TransferURL u w =
    ((Some (url.with_Host
              (net.JoinHostPort mname (url.Port (rewritten (fm w) turl)))
              (rewritten (fm w) turl)), None), w).
Proof.
  intros Hp Hvc Hhit. unfold TransferURL, bind, receiver, ret.
  rewrite Hp, Hvc. cbn. unfold rewritten in Hhit. by rewrite Hhit.
Qed.

Lemma TransferURL_vm_error u turl w err r1 :
  url_Parse u = inr turl ->
  vim25.IsVC (c (fm w)) = true ->
  hosts (fm w) !! url.Hostname (rewritten (fm w) turl) = None ->
  RoundTrip _ (retrieve_vm (fm w)) (remote w) = (inl err, r1) ->
  TransferURL u w =
    ((None, Some err), after [Invoked (retrieve_vm (fm w))] r1 (fm w) w).
Proof.
  intros Hp Hvc Hmiss Hvm. unfold TransferURL, bind, receiver, ret, invoke.
  rewrite Hp, Hvc. cbn. unfold rewritten in Hmiss. rewrite Hmiss.
  unfold retrieve_vm in Hvm. by rewrite Hvm.
Qed.

Lemma TransferURL_no_host u turl w vm_ r1 :
  url_Parse u = inr turl ->
  vim25.IsVC (c (fm w)) = true ->
  hosts (fm w) !! url.Hostname (rewritten (fm w) turl) = None ->
  RoundTrip _ (retrieve_vm (fm w)) (remote w) = (inr vm_, r1) ->
  types.Host (mo.VirtualMachine.Runtime vm_) = None ->
  TransferURL u w =
    ((Some (rewritten (fm w) turl), None),
     after [Invoked (retrieve_vm (fm w))] r1 (fm w) w).
Proof.
  intros Hp Hvc Hmiss Hvm Hnil.
  unfold TransferURL, bind, receiver, ret, invoke.
  rewrite Hp, Hvc. cbn. unfold rewritten in Hmiss. rewrite Hmiss.
  unfold retrieve_vm in Hvm. by rewrite Hvm, Hnil.
Qed.

Lemma TransferURL_host_error u turl w vm_ r1 hostref err r2 :
  url_Parse u = inr turl ->
  vim25.IsVC (c (fm w)) = true ->
  hosts (fm w) !! url.Hostname (rewritten (fm w) turl) = None ->
  RoundTrip _ (retrieve_vm (fm w)) (remote w) = (inr vm_, r1) ->
  types.Host (mo.VirtualMachine.Runtime vm_) = Some hostref ->
  RoundTrip _ (retrieve_host hostref) r1 = (inl err, r2) ->
  TransferURL u w =
    ((None, Some err),
     after [Invoked (retrieve_vm (fm w)); Invoked (retrieve_host hostref)]
       r2 (fm w) w).
Proof.
  intros Hp Hvc Hmiss Hvm Href Hhost.
  unfold TransferURL, bind, receiver, ret, invoke.
  rewrite Hp, Hvc. cbn. unfold rewritten in Hmiss. rewrite Hmiss.
  unfold retrieve_vm in Hvm. rewrite Hvm, Href. cbn.
  unfold retrieve_host in Hhost. rewrite Hhost.
  unfold after. by rewrite <- app_assoc.
Qed.

Lemma TransferURL_config_nil u turl w vm_ r1 hostref host r2 :
  url_Parse u = inr turl ->
  vim25.IsVC (c (fm w)) = true ->
  hosts (fm w) !! url.Hostname (rewritten (fm w) turl) = None ->
  RoundTrip _ (retrieve_vm (fm w)) (remote w) = (inr vm_, r1) ->
  types.Host (mo.VirtualMachine.Runtime vm_) = Some hostref ->
  RoundTrip _ (retrieve_host hostref) r1 = (inr host, r2) ->
  mo.HostSystem.Config host = None ->
  TransferURL u w =
    ((None, Some (config_nil_error vm_ host)),
     after [Invoked (retrieve_vm (fm w)); Invoked (retrieve_host hostref)]
       r2 (fm w) w).
Proof.
  intros Hp Hvc Hmiss Hvm Href Hhost Hcfg.
  unfold TransferURL, bind, receiver, ret, invoke.
  rewrite Hp, Hvc. cbn. unfold rewritten in Hmiss. rewrite Hmiss.
  unfold retrieve_vm in Hvm. rewrite Hvm, Href. cbn.
  unfold retrieve_host in Hhost. rewrite Hhost, Hcfg.
  unfold after. by rewrite <- app_assoc.
Qed.

Lemma TransferURL_resolved u turl w vm_ r1 hostref host r2 config :
  url_Parse u = inr turl ->
  vim25.IsVC (c (fm w)) = true ->
  hosts (fm w) !! url.Hostname (rewritten (fm w) turl) = None ->
  RoundTrip _ (retrieve_vm (fm w)) (remote w) = (inr vm_, r1) ->
  types.Host (mo.VirtualMachine.Runtime vm_) = Some hostref ->
  RoundTrip _ (retrieve_host hostref) r1 = (inr host, r2) ->
  mo.HostSystem.Config host = Some config ->
  let turl1 := rewritten (fm w) turl in
  let h := net.JoinHostPort
             (resolved_name (url.Hostname turl1) config) (url.Port turl1) in
  TransferURL u w =
    ((Some (url.with_Host h turl1), None),
     after [Invoked (retrieve_vm (fm w)); Invoked (retrieve_host hostref)]
       r2
       (set_thumbprint h (thumbprint_of host)
          (cached (url.Hostname turl1) config (fm w))) w).
Proof.
  intros Hp Hvc Hmiss Hvm Href Hhost Hcfg turl1 h.
  unfold TransferURL, bind, receiver, ret, invoke.
  rewrite Hp, Hvc. cbn. unfold rewritten in Hmiss. rewrite Hmiss.
  unfold retrieve_vm in Hvm. rewrite Hvm, Href. cbn.
  unfold retrieve_host in Hhost. rewrite Hhost, Hcfg.
  subst h turl1. unfold resolved_name, cached, preferred, management_ips,
    rewritten, after, update, thumbprint_of.
  destruct (_ && _); [destruct (head _) |]; cbn;
    by rewrite <- app_assoc.
Qed.

End Branches.

(** ** Every call takes one of the branches *)

Section Outcomes.

Context `{E : Env}.

Lemma TransferURL_outcome u w : outcome u w (TransferURL u w).
Proof.
  destruct (url_Parse u) as [err|turl] eqn:Hp.
  { rewrite (TransferURL_parse_error u err w Hp). by constructor. }
  destruct (vim25.IsVC (c (fm w))) eqn:Hvc.
  2:{ rewrite (TransferURL_esx u turl w Hp Hvc). by constructor. }
  destruct (hosts (fm w) !! url.Hostname (rewritten (fm w) turl))
    as [mname|] eqn:Hc.
  { rewrite (TransferURL_hit u turl w mname Hp Hvc Hc). by constructor. }
  destruct (RoundTrip _ (retrieve_vm (fm w)) (remote w))
    as [[err|vm_] r1] eqn:Hvm.
  { rewrite (TransferURL_vm_error u turl w err r1 Hp Hvc Hc Hvm).
    by eapply out_failed. }
  destruct (types.Host (mo.VirtualMachine.Runtime vm_))
    as [hostref|] eqn:Href.
  2:{ rewrite (TransferURL_no_host u turl w vm_ r1 Hp Hvc Hc Hvm Href).
      by eapply out_no_host. }
  destruct (RoundTrip _ (retrieve_host hostref) r1)
    as [[err|host] r2] eqn:Hhost.
  { rewrite (TransferURL_host_error u turl w vm_ r1 hostref err r2
               Hp Hvc Hc Hvm Href Hhost).
    by eapply out_failed. }
  destruct (mo.HostSystem.Config host) as [config|] eqn:Hcfg.
  - rewrite (TransferURL_resolved u turl w vm_ r1 hostref host r2 config
               Hp Hvc Hc Hvm Href Hhost Hcfg).
    by eapply out_resolved.
  - rewrite (TransferURL_config_nil u turl w vm_ r1 hostref host r2
               Hp Hvc Hc Hvm Href Hhost Hcfg).
    by eapply out_failed.
Qed.

(** The cache only grows in a call of [TransferURL]. *)
Lemma TransferURL_hosts_grow u w :
  hosts (fm w) ⊆ hosts (fm (snd (TransferURL u w))).
Proof.
  destruct (TransferURL_outcome u w)
    as [ | | | | | turl host config ks r Hp Hvc Hc turl1 h]; cbn; try done.
  unfold cached. destruct (preferred config); cbn; [|done].
  by apply insert_subseteq.
Qed.

(** A forwarding operation leaves the proxy as it is and makes one
    call, which is not a property retrieval. *)
Lemma run_file_calls (o : FileOp) (w : World) :
  fm (run_file o w) = fm w /\
  exists k, calls (run_file o w) = (calls w ++ [k])%list /\
            is_retrieval k = false.
Proof.
  destruct o; cbn;
    unfold ChangeFileAttributes, CreateTemporaryDirectory,
      CreateTemporaryFile, DeleteDirectory, DeleteFile,
      InitiateFileTransferFromGuest, InitiateFileTransferToGuest,
      ListFiles, MakeDirectory, MoveDirectory, MoveFile,
      bind, receiver, invoke, ret;
    match goal with
    | |- context [RoundTrip ?T ?e ?r] =>
        destruct (RoundTrip T e r) as [[err|res] rem]
    end; cbn; (split; [reflexivity | eexists; split; reflexivity]).
Qed.

Lemma run_hosts_grow (o : Op) (w : World) :
  hosts (fm w) ⊆ hosts (fm (run o w)).
Proof.
  destruct o as [f|u]; cbn.
  - by rewrite (proj1 (run_file_calls f w)).
  - apply TransferURL_hosts_grow.
Qed.

Lemma run_all_hosts_grow (os : list Op) (w : World) :
  hosts (fm w) ⊆ hosts (fm (run_all os w)).
Proof.
  revert w. induction os as [|o os IH]; intros w; cbn; [done|].
  etrans; [apply (run_hosts_grow o) | apply IH].
Qed.

End Outcomes.

(** ** Joining a host and a port, and splitting them again *)

Section Host_and_port.

#[local] Arguments String.append !_ _ / : simpl nomatch.

Lemma substring_whole (s : string) :
  String.substring 0 (String.length s) s = s.
Proof. induction s as [|a s IH]; cbn; [done | by rewrite IH]. Qed.

Lemma from_length (h r : string) :
  strings.from (String.length h) (h ++ r) = r.
Proof.
  unfold strings.from. induction h as [|a h IH]; cbn.
  - rewrite Nat.sub_0_r. apply substring_whole.
  - apply IH.
Qed.

Lemma from_S_length (h r : string) (a : ascii) :
  strings.from (S (String.length h)) (h ++ String a r) = r.
Proof.
  unfold strings.from. induction h as [|b h IH]; cbn.
  - rewrite Nat.sub_0_r. apply substring_whole.
  - apply IH.
Qed.

Lemma upto_length (h r : string) :
  strings.upto (String.length h) (h ++ r) = h.
Proof.
  unfold strings.upto. induction h as [|a h IH]; cbn.
  - by destruct r.
  - by rewrite IH.
Qed.

Lemma isDigit_not_colon (b : ascii) :
  url.isDigit b = true -> Ascii.eqb b ":" = false.
Proof.
  intros Hd. destruct (Ascii.eqb_spec b ":") as [->|]; [|done].
  by vm_compute in Hd.
Qed.

Lemma LastIndexByte_digits (p : string) :
  url.allDigits p = true -> strings.LastIndexByte p ":" = None.
Proof.
  induction p as [|b p IH]; cbn; [done|].
  intros [Hb Hp]%andb_true_iff.
  by rewrite (IH Hp), (isDigit_not_colon b Hb).
Qed.

Lemma LastIndexByte_join (h p : string) :
  strings.LastIndexByte p ":" = None ->
  strings.LastIndexByte (h ++ String ":" p) ":" = Some (String.length h).
Proof.
  intros Hp. induction h as [|a h IH]; cbn.
  - by rewrite Hp.
  - by rewrite IH.
Qed.

Lemma LastIndexByte_from (s : string) (ch : ascii) (i : nat) :
  strings.LastIndexByte s ch = Some i ->
  strings.from i s = String ch (strings.from (S i) s).
Proof.
  revert i. induction s as [|a s IH]; intros i; cbn; [done|].
  destruct (strings.LastIndexByte s ch) as [j|] eqn:Hj.
  - intros [= <-]. unfold strings.from in *. cbn. by apply IH.
  - destruct (Ascii.eqb_spec a ch) as [->|]; [|done].
    intros [= <-]. unfold strings.from. cbn.
    by rewrite Nat.sub_0_r, substring_whole.
Qed.

Lemma HasSuffix_refl (p : string) : strings.HasSuffix p p = true.
Proof.
  destruct p as [|a p]; [done|].
  change (strings.HasSuffix (String a p) (String a p))
    with (if String.eqb (String a p) (String a p) then true
          else strings.HasSuffix p (String a p)).
  by rewrite String.eqb_refl.
Qed.

Lemma HasSuffix_app (h p : string) : strings.HasSuffix (h ++ p) p = true.
Proof.
  induction h as [|a h IH]; [apply HasSuffix_refl|].
  change (strings.HasSuffix (String a h ++ p) p)
    with (if String.eqb (String a (h ++ p)) p then true
          else strings.HasSuffix (h ++ p) p).
  rewrite IH. by destruct (String.eqb (String a (h ++ p)) p).
Qed.

(** What [splitHostPort] makes of a host followed by a colon and a
    numeric port, before it looks for the square brackets. *)
Lemma splitHostPort_joined (h p : string) :
  url.allDigits p = true ->
  url.splitHostPort (h ++ String ":" p) =
    (if strings.HasPrefix h "[" && strings.HasSuffix h "]"
     then String.substring 1 (String.length h - 2) h else h, p).
Proof.
  intros Hp. unfold url.splitHostPort.
  rewrite (LastIndexByte_join h p (LastIndexByte_digits p Hp)).
  rewrite from_length, from_S_length, upto_length. cbn.
  by rewrite Hp.
Qed.

(** The port [Hostname] and [Port] cut off is numeric, or empty. *)
Lemma Port_digits (u : url.URL) : url.allDigits (url.Port u) = true.
Proof.
  unfold url.Port, url.splitHostPort.
  destruct (strings.LastIndexByte (url.Host u) ":") as [colon|] eqn:Hc;
    [|done].
  destruct (url.validOptionalPort (strings.from colon (url.Host u)))
    eqn:Hv; [|done].
  cbn. rewrite (LastIndexByte_from _ _ _ Hc) in Hv. cbn in Hv.
  exact Hv.
Qed.

(** [net.JoinHostPort] and then [splitHostPort] give the host and the
    port back, for a numeric port and any host but a bracketed name
    without a colon. *)
Lemma split_join (host port : string) :
  url.allDigits port = true ->
  bracketed_plain host = false ->
  url.splitHostPort (net.JoinHostPort host port) = (host, port).
Proof.
  intros Hp Hb. unfold net.JoinHostPort, bracketed_plain in *.
  destruct (strings.IndexByte host ":") as [i|].
  - assert (Hj : "[" ++ host ++ "]:" ++ port
                 = (("[" ++ host) ++ "]") ++ String ":" port).
    { cbn. f_equal. clear. induction host as [|a host IH]; cbn; [done|].
      by rewrite IH. }
    rewrite Hj, (splitHostPort_joined _ _ Hp), HasSuffix_app.
    assert (Hpre : strings.HasPrefix (("[" ++ host) ++ "]") "[" = true).
    { unfold strings.HasPrefix. cbn. by destruct (host ++ "]"). }
    rewrite Hpre. cbn [andb]. f_equal.
    assert (Hlen : String.length (("[" ++ host) ++ "]") - 2
                   = String.length host).
    { cbn. clear. induction host as [|a host IH]; cbn; [done|].
      rewrite <- IH. destruct (host ++ "]") eqn:Hl; cbn; [|lia].
      by destruct host. }
    rewrite Hlen.
    change (String.substring 1 (String.length host) (("[" ++ host) ++ "]"))
      with (strings.upto (String.length host) (host ++ "]")).
    apply upto_length.
  - change (host ++ ":" ++ port) with (host ++ String ":" port).
    rewrite (splitHostPort_joined _ _ Hp). by rewrite Hb.
Qed.

Lemma Hostname_joined (host port : string) (u : url.URL) :
  url.allDigits port = true ->
  bracketed_plain host = false ->
  url.Hostname (url.with_Host (net.JoinHostPort host port) u) = host /\
  url.Port (url.with_Host (net.JoinHostPort host port) u) = port.
Proof.
  intros Hp Hb. unfold url.Hostname, url.Port. cbn.
  by rewrite (split_join host port Hp Hb).
Qed.

(** The port survives for every host, bracketed or not. *)
Lemma Port_joined (host port : string) (u : url.URL) :
  url.allDigits port = true ->
  url.Port (url.with_Host (net.JoinHostPort host port) u) = port.
Proof.
  intros Hp. unfold url.Port, net.JoinHostPort.
  cbn [url.Host url.with_Host].
  destruct (strings.IndexByte host ":").
  - assert (Hj : "[" ++ host ++ "]:" ++ port
                 = (("[" ++ host) ++ "]") ++ String ":" port).
    { cbn. f_equal. clear. induction host as [|a host IH]; cbn; [done|].
      by rewrite IH. }
    by rewrite Hj, (splitHostPort_joined _ _ Hp).
  - change (host ++ ":" ++ port) with (host ++ String ":" port).
    by rewrite (splitHostPort_joined _ _ Hp).
Qed.

End Host_and_port.

(** ** The placeholder host, the cache and the thumbprint *)

Section TransferURL_properties.

Context `{E : Env}.

Lemma preferred_none (config : types.HostConfigInfo) :
  length (management_ips config) <> 1 \/ useGuestTransferIP = false ->
  preferred config = None.
Proof.
  unfold preferred. intros [Hlen|Hoff].
  - apply Nat.eqb_neq in Hlen. by rewrite Hlen.
  - rewrite Hoff. by rewrite andb_false_r.
Qed.

Lemma preferred_one (config : types.HostConfigInfo) (ip : IP) :
  management_ips config = [ip] ->
  useGuestTransferIP = true ->
  preferred config = Some ip.
Proof. unfold preferred. by intros -> ->. Qed.

Lemma preferred_inv (config : types.HostConfigInfo) (ip : IP) :
  preferred config = Some ip ->
  management_ips config = [ip] /\ useGuestTransferIP = true.
Proof.
  unfold preferred.
  destruct (length (management_ips config) =? 1)%nat eqn:Hlen; [|done].
  destruct useGuestTransferIP; [|done]. cbn.
  apply Nat.eqb_eq in Hlen.
  destruct (management_ips config) as [|ip' [|]]; try done.
  cbn. by intros [= ->].
Qed.

Lemma rewritten_idem (m : FileManager) (turl : url.URL) :
  rewritten m (rewritten m turl) = rewritten m turl.
Proof.
  unfold rewritten.
  destruct (String.eqb (url.Hostname turl) "*") eqn:Hstar.
  - by destruct (String.eqb (url.Hostname (url.with_Host _ turl)) "*").
  - by rewrite Hstar.
Qed.

Lemma TransferURL_rewritten u u1 turl w :
  url_Parse u = inr turl ->
  url_Parse u1 = inr (rewritten (fm w) turl) ->
  TransferURL u w = TransferURL u1 w.
Proof.
  intros Hp Hp1. unfold TransferURL. rewrite Hp, Hp1.
  unfold bind, receiver. fold (rewritten (fm w) turl).
  fold (rewritten (fm w) (rewritten (fm w) turl)).
  by rewrite rewritten_idem.
Qed.

(** C1: in every call, when the hostname of the parsed URL is the
    placeholder "*", its host (hostname and port) is replaced by the
    host of the client's endpoint URL before anything else is resolved,
    and for any other hostname the host stays as parsed at this step:
    every return of the function, on an ESX host and on vCenter, works
    on the URL with that host. *)
Theorem TransferURL_placeholder (u : string) (turl : url.URL) (w : World) :
  url_Parse u = inr turl ->
  (url.Hostname turl = "*" ->
     continues_with u w
       (url.with_Host (url.Host (vim25.URL (c (fm w)))) turl)) /\
  (url.Hostname turl <> "*" -> continues_with u w turl).
Proof.
  intros Hp.
  assert (Hgen : continues_with u w (rewritten (fm w) turl)).
  { unfold continues_with.
    repeat match goal with |- _ /\ _ => split end.
    - intros Hvc. by apply TransferURL_esx.
    - intros mname Hvc Hhit. by apply TransferURL_hit.
    - intros vm_ r1 Hvc Hmiss Hvm Hnil.
      by rewrite (TransferURL_no_host u turl w vm_ r1 Hp Hvc Hmiss Hvm Hnil).
    - intros vm_ r1 hostref host r2 config Hvc Hmiss Hvm Href Hhost Hcfg.
      rewrite (TransferURL_resolved u turl w vm_ r1 hostref host r2 config
                 Hp Hvc Hmiss Hvm Href Hhost Hcfg). cbn.
      exists (resolved_name (url.Hostname (rewritten (fm w) turl)) config).
      unfold resolved_name, cached.
      destruct (preferred config) as [ip|] eqn:Hpref; cbn.
      + destruct (preferred_inv config ip Hpref) as [Hips _].
        repeat split; [|by right]. right. by exists ip.
      + repeat split; by left.
    - intros u1 Hp1. by apply TransferURL_rewritten with turl. }
  unfold rewritten in Hgen. split; intros Hstar.
  - apply String.eqb_eq in Hstar. by rewrite Hstar in Hgen.
  - apply String.eqb_neq in Hstar. by rewrite Hstar in Hgen.
Qed.

(** C2: connected to vCenter, when the hostname of the URL (after the
    placeholder step) has an entry in the host address cache, the
    returned URL has the cached address joined with the URL's port as
    its host, and no remote call, so no property retrieval, is made. *)
Theorem TransferURL_cache_hit (u : string) (turl : url.URL) (w : World)
    (mname : string) :
  url_Parse u = inr turl ->
  vim25.IsVC (c (fm w)) = true ->
  hosts (fm w) !! url.Hostname (rewritten (fm w) turl) = Some mname ->
  fst (TransferURL u w) =
    (Some (url.with_Host
             (net.JoinHostPort mname (url.Port (rewritten (fm w) turl)))
             (rewritten (fm w) turl)), None) /\
  snd (TransferURL u w) = w /\
  filter (fun k => is_retrieval k = true) (calls (snd (TransferURL u w)))
    = filter (fun k => is_retrieval k = true) (calls w).
Proof.
  intros Hp Hvc Hhit.
  rewrite (TransferURL_hit u turl w mname Hp Hvc Hhit). by cbn.
Qed.

(** C3: connected to vCenter, on a cache miss where the virtual
    machine, its runtime host and the host's configuration are all
    retrieved, the returned URL's host is the resolved name (the
    hostname, or the one management address) joined with the URL's
    port: the name, a colon and the port, with the name in square
    brackets when it has a colon, so that the URL keeps its port; the
    client is the one [SetThumbprint] leaves when called with that host
    and the SSL thumbprint of the runtime host, and its thumbprint table
    maps that host to that thumbprint. *)
Theorem TransferURL_thumbprint (u : string) (turl : url.URL) (w : World)
    (vm_ : mo.VirtualMachine.t) (r1 : Remote)
    (hostref : ManagedObjectReference) (host : mo.HostSystem.t)
    (r2 : Remote) (config : types.HostConfigInfo) :
  url_Parse u = inr turl ->
  vim25.IsVC (c (fm w)) = true ->
  hosts (fm w) !! url.Hostname (rewritten (fm w) turl) = None ->
  RoundTrip _ (retrieve_vm (fm w)) (remote w) = (inr vm_, r1) ->
  types.Host (mo.VirtualMachine.Runtime vm_) = Some hostref ->
  RoundTrip _ (retrieve_host hostref) r1 = (inr host, r2) ->
  mo.HostSystem.Config host = Some config ->
  exists (name : string) (turl' : url.URL),
    fst (TransferURL u w) = (Some turl', None) /\
    (name = url.Hostname (rewritten (fm w) turl) \/
     exists ip, management_ips config = [ip] /\ name = IP_String ip) /\
    url.Host turl' =
      net.JoinHostPort name (url.Port (rewritten (fm w) turl)) /\
    vim25.thumbprints (c (fm (snd (TransferURL u w)))) =
      <[url.Host turl' := thumbprint_of host]>
        (vim25.thumbprints (c (fm w))) /\
    vim25.thumbprints (c (fm (snd (TransferURL u w)))) !! url.Host turl' =
      Some (thumbprint_of host) /\
    url.Host turl' =
      match strings.IndexByte name ":" with
      | Some _ => "[" ++ name ++ "]:" ++ url.Port (rewritten (fm w) turl)
      | None => name ++ ":" ++ url.Port (rewritten (fm w) turl)
      end /\
    url.Port turl' = url.Port (rewritten (fm w) turl) /\
    url.with_Host (url.Host (rewritten (fm w) turl)) turl' =
      rewritten (fm w) turl /\
    c (fm (snd (TransferURL u w))) =
      vim25.SetThumbprint (url.Host turl')
        (types.SslThumbprint (types.Config (mo.HostSystem.Summary host)))
        (c (fm w)) /\
    vim25.thumbprints (c (fm (snd (TransferURL u w)))) !! url.Host turl' =
      Some (types.SslThumbprint (types.Config (mo.HostSystem.Summary host))).
Proof.
  intros Hp Hvc Hmiss Hvm Href Hhost Hcfg.
  rewrite (TransferURL_resolved u turl w vm_ r1 hostref host r2 config
             Hp Hvc Hmiss Hvm Href Hhost Hcfg). cbn [fst snd after fm].
  eexists (resolved_name (url.Hostname (rewritten (fm w) turl)) config).
  eexists. split; [reflexivity|].
  assert (Hc : c (cached (url.Hostname (rewritten (fm w) turl))
                    config (fm w)) = c (fm w)).
  { unfold cached. by destruct (preferred config). }
  cbn [c set_thumbprint vim25.thumbprints vim25.SetThumbprint
       url.Host url.with_Host].
  rewrite Hc.
  repeat match goal with |- _ /\ _ => split end.
  - unfold resolved_name. destruct (preferred config) as [ip|] eqn:Hpref.
    + right. exists ip. by destruct (preferred_inv config ip Hpref).
    + by left.
  - reflexivity.
  - reflexivity.
  - apply lookup_insert_eq.
  - reflexivity.
  - apply Port_joined, Port_digits.
  - by destruct (rewritten (fm w) turl).
  - reflexivity.
  - apply lookup_insert_eq.
Qed.

(** C8: connected to vCenter, on a cache miss, when the retrieved
    virtual machine has no runtime host, the call returns the URL as
    rewritten so far with a nil error, and the cache is unchanged. *)
Theorem TransferURL_no_runtime_host (u : string) (turl : url.URL)
    (w : World) (vm_ : mo.VirtualMachine.t) (r1 : Remote) :
  url_Parse u = inr turl ->
  vim25.IsVC (c (fm w)) = true ->
  hosts (fm w) !! url.Hostname (rewritten (fm w) turl) = None ->
  RoundTrip _ (retrieve_vm (fm w)) (remote w) = (inr vm_, r1) ->
  types.Host (mo.VirtualMachine.Runtime vm_) = None ->
  fst (TransferURL u w) = (Some (rewritten (fm w) turl), None) /\
  hosts (fm (snd (TransferURL u w))) = hosts (fm w) /\
  fm (snd (TransferURL u w)) = fm w.
Proof.
  intros Hp Hvc Hmiss Hvm Hnil.
  by rewrite (TransferURL_no_host u turl w vm_ r1 Hp Hvc Hmiss Hvm Hnil).
Qed.

(** C9: connected to vCenter, on a cache miss with a runtime host whose
    retrieved configuration is nil, the call returns a nil URL and an
    error built from the name and reference of the virtual machine and
    of the host, and the cache is unchanged. *)
Theorem TransferURL_host_config_nil (u : string) (turl : url.URL)
    (w : World) (vm_ : mo.VirtualMachine.t) (r1 : Remote)
    (hostref : ManagedObjectReference) (host : mo.HostSystem.t)
    (r2 : Remote) :
  url_Parse u = inr turl ->
  vim25.IsVC (c (fm w)) = true ->
  hosts (fm w) !! url.Hostname (rewritten (fm w) turl) = None ->
  RoundTrip _ (retrieve_vm (fm w)) (remote w) = (inr vm_, r1) ->
  types.Host (mo.VirtualMachine.Runtime vm_) = Some hostref ->
  RoundTrip _ (retrieve_host hostref) r1 = (inr host, r2) ->
  mo.HostSystem.Config host = None ->
  fst (TransferURL u w) =
    (None,
     Some (Errorf
             "guest TransferURL failed for vm %q (%s): host %q (%s) config==nil, connectionState==%s"
             [ ArgString (mo.VirtualMachine.Name vm_);
               ArgRef (mo.VirtualMachine.Self vm_);
               ArgString (mo.HostSystem.Name host);
               ArgRef (mo.HostSystem.Self host);
               ArgString (types.ConnectionState
                            (mo.HostSystem.Runtime host)) ])) /\
  hosts (fm (snd (TransferURL u w))) = hosts (fm w) /\
  fm (snd (TransferURL u w)) = fm w.
Proof.
  intros Hp Hvc Hmiss Hvm Href Hhost Hcfg.
  by rewrite (TransferURL_config_nil u turl w vm_ r1 hostref host r2
                Hp Hvc Hmiss Hvm Href Hhost Hcfg).
Qed.

(** C10: connected to vCenter, on a cache miss that reaches the choice
    of the management address: when the host does not have exactly one
    management address, or the preference is switched off by
    GOVMOMI_USE_GUEST_TRANSFER_IP, the hostname stays the URL's host
    (joined with the port), the cache is left alone and the thumbprint
    is registered for that host; when there is exactly one address and
    the preference is on, that address is used and cached. *)
Theorem TransferURL_management_ip (u : string) (turl : url.URL) (w : World)
    (vm_ : mo.VirtualMachine.t) (r1 : Remote)
    (hostref : ManagedObjectReference) (host : mo.HostSystem.t)
    (r2 : Remote) (config : types.HostConfigInfo) :
  url_Parse u = inr turl ->
  vim25.IsVC (c (fm w)) = true ->
  hosts (fm w) !! url.Hostname (rewritten (fm w) turl) = None ->
  RoundTrip _ (retrieve_vm (fm w)) (remote w) = (inr vm_, r1) ->
  types.Host (mo.VirtualMachine.Runtime vm_) = Some hostref ->
  RoundTrip _ (retrieve_host hostref) r1 = (inr host, r2) ->
  mo.HostSystem.Config host = Some config ->
  let name := url.Hostname (rewritten (fm w) turl) in
  let port := url.Port (rewritten (fm w) turl) in
  let w' := snd (TransferURL u w) in
  (length (management_ips config) <> 1 \/ useGuestTransferIP = false ->
     fst (TransferURL u w) =
       (Some (url.with_Host (net.JoinHostPort name port)
                (rewritten (fm w) turl)), None) /\
     hosts (fm w') = hosts (fm w) /\
     vim25.thumbprints (c (fm w')) !! net.JoinHostPort name port =
       Some (thumbprint_of host)) /\
  (forall ip,
     management_ips config = [ip] -> useGuestTransferIP = true ->
     fst (TransferURL u w) =
       (Some (url.with_Host (net.JoinHostPort (IP_String ip) port)
                (rewritten (fm w) turl)), None) /\
     hosts (fm w') = <[name := IP_String ip]> (hosts (fm w)) /\
     vim25.thumbprints (c (fm w')) !! net.JoinHostPort (IP_String ip) port =
       Some (thumbprint_of host)).
Proof.
  intros Hp Hvc Hmiss Hvm Href Hhost Hcfg name port w'. subst w'.
  rewrite (TransferURL_resolved u turl w vm_ r1 hostref host r2 config
             Hp Hvc Hmiss Hvm Href Hhost Hcfg). cbn.
  fold name port. unfold resolved_name, cached. split.
  - intros Hnot. rewrite (preferred_none config Hnot). cbn.
    repeat split. apply lookup_insert_eq.
  - intros ip Hone Hon. rewrite (preferred_one config ip Hone Hon). cbn.
    repeat split. apply lookup_insert_eq.
Qed.

End TransferURL_properties.

(** ** The forwarding operations and the frame of every operation *)

Section Forwarding.

Context `{E : Env}.

Ltac forwarding :=
  intros w; cbn; unfold bind, receiver, invoke, ret, after;
  match goal with
  | |- context [RoundTrip ?T ?e ?r] =>
      destruct (RoundTrip T e r) as [[err|res] rem]
  end; by cbn.

Lemma ChangeFileAttributes_forwards auth guestFilePath fileAttributes :
  forwards (ChangeFileAttributes auth guestFilePath fileAttributes)
    (fun m => methods.ChangeFileAttributesInGuest
                (Reference m) (vm m) auth guestFilePath fileAttributes)
    error_only.
Proof. unfold ChangeFileAttributes. forwarding. Qed.

Lemma CreateTemporaryDirectory_forwards auth prefix suffix path :
  forwards (CreateTemporaryDirectory auth prefix suffix path)
    (fun m => methods.CreateTemporaryDirectoryInGuest
                (Reference m) (vm m) auth prefix suffix path)
    string_or_error.
Proof. unfold CreateTemporaryDirectory. forwarding. Qed.

Lemma CreateTemporaryFile_forwards auth prefix suffix path :
  forwards (CreateTemporaryFile auth prefix suffix path)
    (fun m => methods.CreateTemporaryFileInGuest
                (Reference m) (vm m) auth prefix suffix path)
    string_or_error.
Proof. unfold CreateTemporaryFile. forwarding. Qed.

Lemma DeleteDirectory_forwards auth directoryPath recursive :
  forwards (DeleteDirectory auth directoryPath recursive)
    (fun m => methods.DeleteDirectoryInGuest
                (Reference m) (vm m) auth directoryPath recursive)
    error_only.
Proof. unfold DeleteDirectory. forwarding. Qed.

Lemma DeleteFile_forwards auth filePath :
  forwards (DeleteFile auth filePath)
    (fun m => methods.DeleteFileInGuest (Reference m) (vm m) auth filePath)
    error_only.
Proof. unfold DeleteFile. forwarding. Qed.

Lemma InitiateFileTransferFromGuest_forwards auth guestFilePath :
  forwards (InitiateFileTransferFromGuest auth guestFilePath)
    (fun m => methods.InitiateFileTransferFromGuest
                (Reference m) (vm m) auth guestFilePath)
    pointer_or_error.
Proof. unfold InitiateFileTransferFromGuest. forwarding. Qed.

Lemma InitiateFileTransferToGuest_forwards auth guestFilePath
    fileAttributes fileSize overwrite :
  forwards (InitiateFileTransferToGuest auth guestFilePath fileAttributes
              fileSize overwrite)
    (fun m => methods.InitiateFileTransferToGuest
                (Reference m) (vm m) auth guestFilePath fileAttributes
                fileSize overwrite)
    string_or_error.
Proof. unfold InitiateFileTransferToGuest. forwarding. Qed.

Lemma ListFiles_forwards auth filePath index maxResults matchPattern :
  forwards (ListFiles auth filePath index maxResults matchPattern)
    (fun m => methods.ListFilesInGuest
                (Reference m) (vm m) auth filePath index maxResults
                matchPattern)
    pointer_or_error.
Proof. unfold ListFiles. forwarding. Qed.

Lemma MakeDirectory_forwards auth directoryPath createParentDirectories :
  forwards (MakeDirectory auth directoryPath createParentDirectories)
    (fun m => methods.MakeDirectoryInGuest
                (Reference m) (vm m) auth directoryPath
                createParentDirectories)
    error_only.
Proof. unfold MakeDirectory. forwarding. Qed.

Lemma MoveDirectory_forwards auth srcDirectoryPath dstDirectoryPath :
  forwards (MoveDirectory auth srcDirectoryPath dstDirectoryPath)
    (fun m => methods.MoveDirectoryInGuest
                (Reference m) (vm m) auth srcDirectoryPath dstDirectoryPath)
    error_only.
Proof. unfold MoveDirectory. forwarding. Qed.

Lemma MoveFile_forwards auth srcFilePath dstFilePath overwrite :
  forwards (MoveFile auth srcFilePath dstFilePath overwrite)
    (fun m => methods.MoveFileInGuest
                (Reference m) (vm m) auth srcFilePath dstFilePath overwrite)
    error_only.
Proof. unfold MoveFile. forwarding. Qed.

(** C6: each of the eleven file and directory operations makes exactly
    one remote call and leaves the proxy, its client and the host
    address cache as they were, whatever the answer is. *)
Theorem file_operation_one_call (o : FileOp) (w : World) :
  fm (run_file o w) = fm w /\
  hosts (fm (run_file o w)) = hosts (fm w) /\
  exists k : Call, calls (run_file o w) = (calls w ++ [k])%list.
Proof.
  destruct (run_file_calls o w) as [Hfm (k & Hk & _)].
  rewrite Hfm. split; [done|]. split; [done|]. by exists k.
Qed.

(** C7: each forwarding operation sends one request made of its own
    arguments, the manager reference stored in the proxy and the
    reference of its virtual machine; on success it returns the
    response's Returnval (nothing, for the operations that only report
    an error), and on failure the zero value of its result, the empty
    string or a nil pointer, with the error of the remote invocation. *)
Theorem forwarding_operations :
  (forall auth guestFilePath fileAttributes,
     forwards (ChangeFileAttributes auth guestFilePath fileAttributes)
       (fun m => methods.ChangeFileAttributesInGuest
                   (ManagedObjectReference_ m) (vm m) auth guestFilePath fileAttributes)
       (fun a => match a with inl err => Some err | inr _ => None end)) /\
  (forall auth prefix suffix path,
     forwards (CreateTemporaryDirectory auth prefix suffix path)
       (fun m => methods.CreateTemporaryDirectoryInGuest
                   (ManagedObjectReference_ m) (vm m) auth prefix suffix path)
       (fun a => match a with
                 | inl err => ("", Some err)
                 | inr res => (types.Returnval res, None)
                 end)) /\
  (forall auth prefix suffix path,
     forwards (CreateTemporaryFile auth prefix suffix path)
       (fun m => methods.CreateTemporaryFileInGuest
                   (ManagedObjectReference_ m) (vm m) auth prefix suffix path)
       (fun a => match a with
                 | inl err => ("", Some err)
                 | inr res => (types.Returnval res, None)
                 end)) /\
  (forall auth directoryPath recursive,
     forwards (DeleteDirectory auth directoryPath recursive)
       (fun m => methods.DeleteDirectoryInGuest
                   (ManagedObjectReference_ m) (vm m) auth directoryPath recursive)
       (fun a => match a with inl err => Some err | inr _ => None end)) /\
  (forall auth filePath,
     forwards (DeleteFile auth filePath)
       (fun m => methods.DeleteFileInGuest
                   (ManagedObjectReference_ m) (vm m) auth filePath)
       (fun a => match a with inl err => Some err | inr _ => None end)) /\
  (forall auth guestFilePath,
     forwards (InitiateFileTransferFromGuest auth guestFilePath)
       (fun m => methods.InitiateFileTransferFromGuest
                   (ManagedObjectReference_ m) (vm m) auth guestFilePath)
       (fun a => match a with
                 | inl err => (None, Some err)
                 | inr res => (Some (types.Returnval res), None)
                 end)) /\
  (forall auth guestFilePath fileAttributes fileSize overwrite,
     forwards (InitiateFileTransferToGuest auth guestFilePath
                 fileAttributes fileSize overwrite)
       (fun m => methods.InitiateFileTransferToGuest
                   (ManagedObjectReference_ m) (vm m) auth guestFilePath fileAttributes
                   fileSize overwrite)
       (fun a => match a with
                 | inl err => ("", Some err)
                 | inr res => (types.Returnval res, None)
                 end)) /\
  (forall auth filePath index maxResults matchPattern,
     forwards (ListFiles auth filePath index maxResults matchPattern)
       (fun m => methods.ListFilesInGuest
                   (ManagedObjectReference_ m) (vm m) auth filePath index maxResults
                   matchPattern)
       (fun a => match a with
                 | inl err => (None, Some err)
                 | inr res => (Some (types.Returnval res), None)
                 end)) /\
  (forall auth directoryPath createParentDirectories,
     forwards (MakeDirectory auth directoryPath createParentDirectories)
       (fun m => methods.MakeDirectoryInGuest
                   (ManagedObjectReference_ m) (vm m) auth directoryPath
                   createParentDirectories)
       (fun a => match a with inl err => Some err | inr _ => None end)) /\
  (forall auth srcDirectoryPath dstDirectoryPath,
     forwards (MoveDirectory auth srcDirectoryPath dstDirectoryPath)
       (fun m => methods.MoveDirectoryInGuest
                   (ManagedObjectReference_ m) (vm m) auth srcDirectoryPath
                   dstDirectoryPath)
       (fun a => match a with inl err => Some err | inr _ => None end)) /\
  (forall auth srcFilePath dstFilePath overwrite,
     forwards (MoveFile auth srcFilePath dstFilePath overwrite)
       (fun m => methods.MoveFileInGuest
                   (ManagedObjectReference_ m) (vm m) auth srcFilePath dstFilePath
                   overwrite)
       (fun a => match a with inl err => Some err | inr _ => None end)).
Proof.
  repeat match goal with |- _ /\ _ => split end; intros.
  - apply ChangeFileAttributes_forwards.
  - apply CreateTemporaryDirectory_forwards.
  - apply CreateTemporaryFile_forwards.
  - apply DeleteDirectory_forwards.
  - apply DeleteFile_forwards.
  - apply InitiateFileTransferFromGuest_forwards.
  - apply InitiateFileTransferToGuest_forwards.
  - apply ListFiles_forwards.
  - apply MakeDirectory_forwards.
  - apply MoveDirectory_forwards.
  - apply MoveFile_forwards.
Qed.

(** C5: the host address cache is never invalidated: an entry that is
    in the cache is still there, with the same address, after any
    sequence of operations of the proxy. *)
Theorem cache_never_invalidated (os : list Op) (w : World)
    (name mname : string) :
  hosts (fm w) !! name = Some mname ->
  hosts (fm (run_all os w)) !! name = Some mname.
Proof.
  intros Hin.
  by apply (lookup_weaken _ _ _ _ Hin), run_all_hosts_grow.
Qed.

Lemma cached_frame (name : string) (config : types.HostConfigInfo)
    (m : FileManager) :
  ManagedObjectReference_ (cached name config m) = ManagedObjectReference_ m /\
  vm (cached name config m) = vm m /\
  c (cached name config m) = c m.
Proof. unfold cached. by destruct (preferred config). Qed.

Lemma TransferURL_frame (u : string) (w w' : World)
    (res : option url.URL * option error) :
  TransferURL u w = (res, w') ->
  ManagedObjectReference_ (fm w') = ManagedObjectReference_ (fm w) /\
  vm (fm w') = vm (fm w) /\
  vim25.URL (c (fm w')) = vim25.URL (c (fm w)) /\
  vim25.IsVC (c (fm w')) = vim25.IsVC (c (fm w)) /\
  (vim25.thumbprints (c (fm w')) = vim25.thumbprints (c (fm w)) \/
   exists turl' thumbprint,
     res = (Some turl', None) /\
     vim25.thumbprints (c (fm w')) =
       <[url.Host turl' := thumbprint]> (vim25.thumbprints (c (fm w)))).
Proof.
  intros Heq. pose proof (TransferURL_outcome u w) as Ho.
  rewrite Heq in Ho.
  inversion Ho as [ | | | | | turl host config ks r Hp Hvc Hc turl1 h];
    subst; cbn; try (repeat split; by left).
  destruct (cached_frame (url.Hostname turl1) config (fm w))
    as (Hr & Hvm & Hcl).
  rewrite Hr, Hvm, Hcl. repeat split.
  right. by exists (url.with_Host h turl1), (thumbprint_of host).
Qed.

End Forwarding.

(** ** Results, remote calls and cache writes of every call *)

Section Every_call.

Context `{E : Env}.

Lemma TransferURL_branch (u : string) (w : World) :
  branch u w (TransferURL u w).
Proof.
  destruct (url_Parse u) as [err|turl] eqn:Hp.
  { rewrite (TransferURL_parse_error u err w Hp). by apply br_parse_error. }
  destruct (vim25.IsVC (c (fm w))) eqn:Hvc.
  2:{ rewrite (TransferURL_esx u turl w Hp Hvc). by apply br_esx. }
  destruct (hosts (fm w) !! url.Hostname (rewritten (fm w) turl))
    as [mname|] eqn:Hc.
  { rewrite (TransferURL_hit u turl w mname Hp Hvc Hc). by apply br_hit. }
  destruct (RoundTrip _ (retrieve_vm (fm w)) (remote w))
    as [[err|vm_] r1] eqn:Hvm.
  { rewrite (TransferURL_vm_error u turl w err r1 Hp Hvc Hc Hvm).
    by apply br_vm_error with turl. }
  destruct (types.Host (mo.VirtualMachine.Runtime vm_))
    as [hostref|] eqn:Href.
  2:{ rewrite (TransferURL_no_host u turl w vm_ r1 Hp Hvc Hc Hvm Href).
      by apply br_no_host with vm_. }
  destruct (RoundTrip _ (retrieve_host hostref) r1)
    as [[err|host] r2] eqn:Hhost.
  { rewrite (TransferURL_host_error u turl w vm_ r1 hostref err r2
               Hp Hvc Hc Hvm Href Hhost).
    by apply br_host_error with turl vm_ r1. }
  destruct (mo.HostSystem.Config host) as [config|] eqn:Hcfg.
  - rewrite (TransferURL_resolved u turl w vm_ r1 hostref host r2 config
               Hp Hvc Hc Hvm Href Hhost Hcfg).
    by apply br_resolved with vm_ r1.
  - rewrite (TransferURL_config_nil u turl w vm_ r1 hostref host r2
               Hp Hvc Hc Hvm Href Hhost Hcfg).
    by apply br_config_nil with turl r1.
Qed.

(** X1: a call returns a URL and no error, or no URL and an error; when
    it returns an error the proxy, with its cache and its client, is as
    it was before the call. *)
Theorem TransferURL_url_or_error (u : string) (w : World) :
  (exists turl', fst (TransferURL u w) = (Some turl', None)) \/
  (exists err,
     fst (TransferURL u w) = (None, Some err) /\
     fm (snd (TransferURL u w)) = fm w).
Proof.
  destruct (TransferURL_branch u w); cbn; eauto.
Qed.

(** X2: the error a call returns is the error of [url.Parse], or the
    error of the retrieval of the virtual machine, or the error of the
    retrieval of its runtime host, or the error that the host has no
    configuration, which names that virtual machine and that host. *)
Theorem TransferURL_error_origin (u : string) (w : World) (err : error) :
  fst (TransferURL u w) = (None, Some err) ->
  url_Parse u = inl err \/
  (exists r1,
     RoundTrip _ (retrieve_vm (fm w)) (remote w) = (inl err, r1)) \/
  (exists vm_ r1 hostref,
     RoundTrip _ (retrieve_vm (fm w)) (remote w) = (inr vm_, r1) /\
     types.Host (mo.VirtualMachine.Runtime vm_) = Some hostref /\
     ((exists r2, RoundTrip _ (retrieve_host hostref) r1 = (inl err, r2)) \/
      (exists host r2,
         RoundTrip _ (retrieve_host hostref) r1 = (inr host, r2) /\
         mo.HostSystem.Config host = None /\
         err = config_nil_error vm_ host))).
Proof.
  intros Hres.
  destruct (TransferURL_branch u w)
    as [ err0 Hp | turl Hp Hvc | turl mname Hp Hvc Hc
       | turl err0 r1 Hp Hvc Hc Hvm
       | turl vm_ r1 Hp Hvc Hc Hvm Href
       | turl vm_ r1 hostref err0 r2 Hp Hvc Hc Hvm Href Hhost
       | turl vm_ r1 hostref host r2 Hp Hvc Hc Hvm Href Hhost Hcfg
       | turl vm_ r1 hostref host r2 config Hp Hvc Hc Hvm Href Hhost Hcfg ];
    cbn in Hres; try discriminate Hres; injection Hres as <-.
  - by left.
  - right; left. by exists r1.
  - right; right. exists vm_, r1, hostref. repeat split; [done..|].
    left. by exists r2.
  - right; right. exists vm_, r1, hostref. repeat split; [done..|].
    right. by exists host, r2.
Qed.

Lemma TransferURL_calls_grow (u : string) (w : World) :
  calls w `prefix_of` calls (snd (TransferURL u w)).
Proof.
  destruct (TransferURL_branch u w); cbn;
    first [ by exists [] ; rewrite app_nil_r | by eexists ].
Qed.

(** X3: a call makes no remote call, or retrieves the virtual machine of
    the proxy, or retrieves it and then the runtime host that the first
    answer names; it makes no other call, and none at all when the
    client is connected to an ESX host. *)
Theorem TransferURL_calls (u : string) (w : World) :
  exists ks : list Call,
    calls (snd (TransferURL u w)) = (calls w ++ ks)%list /\
    (ks = [] \/
     ks = [Invoked (retrieve_vm (fm w))] \/
     exists vm_ r1 hostref,
       RoundTrip _ (retrieve_vm (fm w)) (remote w) = (inr vm_, r1) /\
       types.Host (mo.VirtualMachine.Runtime vm_) = Some hostref /\
       ks = [Invoked (retrieve_vm (fm w)); Invoked (retrieve_host hostref)]) /\
    (if vim25.IsVC (c (fm w)) then True else ks = []).
Proof.
  destruct (TransferURL_branch u w)
    as [ err Hp | turl Hp Hvc | turl mname Hp Hvc Hc
       | turl err r1 Hp Hvc Hc Hvm
       | turl vm_ r1 Hp Hvc Hc Hvm Href
       | turl vm_ r1 hostref err r2 Hp Hvc Hc Hvm Href Hhost
       | turl vm_ r1 hostref host r2 Hp Hvc Hc Hvm Href Hhost Hcfg
       | turl vm_ r1 hostref host r2 config Hp Hvc Hc Hvm Href Hhost Hcfg ];
    cbn.
  - exists []. rewrite app_nil_r. repeat split; [by left|].
    by destruct (vim25.IsVC _).
  - exists []. rewrite app_nil_r, Hvc. repeat split. by left.
  - exists []. rewrite app_nil_r, Hvc. repeat split. by left.
  - eexists. rewrite Hvc. repeat split. right; by left.
  - eexists. rewrite Hvc. repeat split. right; by left.
  - eexists. rewrite Hvc. repeat split. right; right.
    by exists vm_, r1, hostref.
  - eexists. rewrite Hvc. repeat split. right; right.
    by exists vm_, r1, hostref.
  - eexists. rewrite Hvc. repeat split. right; right.
    by exists vm_, r1, hostref.
Qed.

(** X4: a call writes the cache at most once: it leaves the cache as it
    was, or adds one entry, under the hostname of the URL after the
    placeholder step, which had no entry; the entry is the one
    management address in the configuration of the host that the call
    retrieved as the runtime host of its virtual machine, and it is
    only written on vCenter with the preference on. *)
Theorem TransferURL_cache_write (u : string) (w : World) :
  hosts (fm (snd (TransferURL u w))) = hosts (fm w) \/
  exists turl vm_ r1 hostref host r2 config ip,
    url_Parse u = inr turl /\
    vim25.IsVC (c (fm w)) = true /\
    hosts (fm w) !! url.Hostname (rewritten (fm w) turl) = None /\
    RoundTrip _ (retrieve_vm (fm w)) (remote w) = (inr vm_, r1) /\
    types.Host (mo.VirtualMachine.Runtime vm_) = Some hostref /\
    RoundTrip _ (retrieve_host hostref) r1 = (inr host, r2) /\
    mo.HostSystem.Config host = Some config /\
    HostSystemManagementIPs
      (types.NetConfig (types.VirtualNicManagerInfo config)) = [ip] /\
    useGuestTransferIP = true /\
    hosts (fm (snd (TransferURL u w))) =
      <[url.Hostname (rewritten (fm w) turl) := IP_String ip]> (hosts (fm w)).
Proof.
  destruct (TransferURL_branch u w)
    as [ | | | | | |
       | turl vm_ r1 hostref host r2 config Hp Hvc Hc Hvm Href Hhost Hcfg ];
    cbn; try by left.
  unfold cached. destruct (preferred config) as [ip|] eqn:Hpref; [|by left].
  destruct (preferred_inv config ip Hpref) as [Hips Hon].
  right. by exists turl, vm_, r1, hostref, host, r2, config, ip.
Qed.

(** X5: on a cache miss that reaches the choice of the address, the
    hostname gets a cache entry exactly when the host has one management
    address and GOVMOMI_USE_GUEST_TRANSFER_IP is not the string
    "false". *)
Theorem TransferURL_caches_iff (u : string) (turl : url.URL) (w : World)
    (vm_ : mo.VirtualMachine.t) (r1 : Remote)
    (hostref : ManagedObjectReference) (host : mo.HostSystem.t)
    (r2 : Remote) (config : types.HostConfigInfo) :
  url_Parse u = inr turl ->
  vim25.IsVC (c (fm w)) = true ->
  hosts (fm w) !! url.Hostname (rewritten (fm w) turl) = None ->
  RoundTrip _ (retrieve_vm (fm w)) (remote w) = (inr vm_, r1) ->
  types.Host (mo.VirtualMachine.Runtime vm_) = Some hostref ->
  RoundTrip _ (retrieve_host hostref) r1 = (inr host, r2) ->
  mo.HostSystem.Config host = Some config ->
  is_Some (hosts (fm (snd (TransferURL u w)))
             !! url.Hostname (rewritten (fm w) turl)) <->
  length (management_ips config) = 1 /\
  Getenv "GOVMOMI_USE_GUEST_TRANSFER_IP" <> "false".
Proof.
  intros Hp Hvc Hmiss Hvm Href Hhost Hcfg.
  rewrite (TransferURL_resolved u turl w vm_ r1 hostref host r2 config
             Hp Hvc Hmiss Hvm Href Hhost Hcfg). cbn.
  assert (Hon : useGuestTransferIP = true <->
                Getenv "GOVMOMI_USE_GUEST_TRANSFER_IP" <> "false").
  { unfold useGuestTransferIP.
    destruct (String.eqb_spec (Getenv "GOVMOMI_USE_GUEST_TRANSFER_IP")
                "false") as [Heq|Hne]; cbn; split; done. }
  unfold cached. destruct (preferred config) as [ip|] eqn:Hpref; cbn.
  - destruct (preferred_inv config ip Hpref) as [Hips Hen].
    rewrite lookup_insert_eq, Hips. split; [|by eauto].
    intros _. split; [done | by apply Hon].
  - rewrite Hmiss. split; [by intros [? ?]|].
    intros [Hlen Hne]. apply Hon in Hne.
    unfold preferred in Hpref. rewrite Hne in Hpref.
    apply Nat.eqb_eq in Hlen. rewrite Hlen in Hpref. cbn in Hpref.
    destruct (management_ips config); [done | discriminate Hpref].
Qed.

Lemma with_Host_back (h : string) (turl : url.URL) :
  url.with_Host (url.Host turl) (url.with_Host h turl) = turl.
Proof. by destruct turl. Qed.

Lemma rewritten_back (m : FileManager) (turl : url.URL) :
  url.with_Host (url.Host turl) (rewritten m turl) = turl.
Proof.
  unfold rewritten. destruct (String.eqb _ _); by destruct turl.
Qed.

(** X6: a URL that a call returns differs from the parsed one in its
    host only, and its port is the port of the URL after the
    placeholder step: the port of the parsed URL, unless the hostname
    was "*". *)
Theorem TransferURL_keeps_port (u : string) (turl turl' : url.URL)
    (w : World) :
  url_Parse u = inr turl ->
  fst (TransferURL u w) = (Some turl', None) ->
  url.with_Host (url.Host turl) turl' = turl /\
  url.Port turl' = url.Port (rewritten (fm w) turl) /\
  (url.Hostname turl <> "*" -> url.Port turl' = url.Port turl).
Proof.
  intros Hp Hres.
  assert (Hstar : url.Hostname turl <> "*" -> rewritten (fm w) turl = turl).
  { intros Hne%String.eqb_neq. unfold rewritten. by rewrite Hne. }
  assert (Hgoal : url.with_Host (url.Host turl) turl' = turl /\
                  url.Port turl' = url.Port (rewritten (fm w) turl)).
  { destruct (TransferURL_branch u w)
      as [ err Hp' | turl0 Hp' Hvc | turl0 mname Hp' Hvc Hc
         | turl0 err r1 Hp' Hvc Hc Hvm
         | turl0 vm_ r1 Hp' Hvc Hc Hvm Href
         | turl0 vm_ r1 hostref err r2 Hp' Hvc Hc Hvm Href Hhost
         | turl0 vm_ r1 hostref host r2 Hp' Hvc Hc Hvm Href Hhost Hcfg
         | turl0 vm_ r1 hostref host r2 config
             Hp' Hvc Hc Hvm Href Hhost Hcfg ];
      cbn in Hres; try discriminate Hres;
      rewrite Hp in Hp'; injection Hp' as <-; injection Hres as <-.
    - split; [apply rewritten_back | done].
    - split; [|apply Port_joined, Port_digits].
      rewrite with_Host_twice. apply rewritten_back.
    - split; [apply rewritten_back | done].
    - split; [|apply Port_joined, Port_digits].
      rewrite with_Host_twice. apply rewritten_back. }
  destruct Hgoal as [Hh Hport]. repeat split; [done..|].
  intros Hne. by rewrite Hport, (Hstar Hne).
Qed.

(** X7: on a cache hit the hostname of the returned URL is the cached
    address itself, whatever its form, but for a bracketed name that has
    no colon. *)
Theorem TransferURL_hit_hostname (u : string) (turl turl' : url.URL)
    (w : World) (mname : string) :
  url_Parse u = inr turl ->
  vim25.IsVC (c (fm w)) = true ->
  hosts (fm w) !! url.Hostname (rewritten (fm w) turl) = Some mname ->
  bracketed_plain mname = false ->
  fst (TransferURL u w) = (Some turl', None) ->
  url.Hostname turl' = mname.
Proof.
  intros Hp Hvc Hhit Hb Hres.
  rewrite (TransferURL_hit u turl w mname Hp Hvc Hhit) in Hres.
  injection Hres as <-.
  by apply Hostname_joined; [apply Port_digits|].
Qed.

(** X8: when a call resolves the host, the hostname of the returned URL
    is the management address it cached or, without one, the hostname
    it was given. *)
Theorem TransferURL_resolved_hostname (u : string) (turl turl' : url.URL)
    (w : World) (vm_ : mo.VirtualMachine.t) (r1 : Remote)
    (hostref : ManagedObjectReference) (host : mo.HostSystem.t)
    (r2 : Remote) (config : types.HostConfigInfo) :
  url_Parse u = inr turl ->
  vim25.IsVC (c (fm w)) = true ->
  hosts (fm w) !! url.Hostname (rewritten (fm w) turl) = None ->
  RoundTrip _ (retrieve_vm (fm w)) (remote w) = (inr vm_, r1) ->
  types.Host (mo.VirtualMachine.Runtime vm_) = Some hostref ->
  RoundTrip _ (retrieve_host hostref) r1 = (inr host, r2) ->
  mo.HostSystem.Config host = Some config ->
  bracketed_plain
    (resolved_name (url.Hostname (rewritten (fm w) turl)) config) = false ->
  fst (TransferURL u w) = (Some turl', None) ->
  url.Hostname turl' =
    match hosts (fm (snd (TransferURL u w)))
            !! url.Hostname (rewritten (fm w) turl) with
    | Some mname => mname
    | None => url.Hostname (rewritten (fm w) turl)
    end.
Proof.
  intros Hp Hvc Hmiss Hvm Href Hhost Hcfg Hb.
  rewrite (TransferURL_resolved u turl w vm_ r1 hostref host r2 config
             Hp Hvc Hmiss Hvm Href Hhost Hcfg). cbn.
  intros [= <-].
  rewrite (proj1 (Hostname_joined _ _ _ (Port_digits _) Hb)).
  unfold resolved_name, cached.
  destruct (preferred config) as [ip|]; cbn.
  - by rewrite lookup_insert_eq.
  - by rewrite Hmiss.
Qed.

End Every_call.

(** ** What an operation writes *)

Section Frame.

Context `{E : Env}.

Lemma TransferURL_registers (u : string) (w : World) :
  vim25.thumbprints (c (fm (snd (TransferURL u w)))) =
    vim25.thumbprints (c (fm w)) \/
  exists turl vm_ r1 hostref host r2 config turl',
    url_Parse u = inr turl /\
    vim25.IsVC (c (fm w)) = true /\
    hosts (fm w) !! url.Hostname (rewritten (fm w) turl) = None /\
    RoundTrip _ (retrieve_vm (fm w)) (remote w) = (inr vm_, r1) /\
    types.Host (mo.VirtualMachine.Runtime vm_) = Some hostref /\
    RoundTrip _ (retrieve_host hostref) r1 = (inr host, r2) /\
    mo.HostSystem.Config host = Some config /\
    fst (TransferURL u w) = (Some turl', None) /\
    vim25.thumbprints (c (fm (snd (TransferURL u w)))) =
      <[url.Host turl' :=
          types.SslThumbprint (types.Config (mo.HostSystem.Summary host))]>
        (vim25.thumbprints (c (fm w))).
Proof.
  destruct (TransferURL_branch u w)
    as [ | | | | | |
       | turl vm_ r1 hostref host r2 config Hp Hvc Hc Hvm Href Hhost Hcfg ];
    cbn; try by left.
  right. exists turl, vm_, r1, hostref, host, r2, config. eexists.
  repeat split; try done.
  by rewrite (proj2 (proj2 (cached_frame _ config (fm w)))).
Qed.

(** C4, as the code has it: an operation writes nothing of the proxy and
    its client but the host address cache and the client's thumbprint
    table. The reference of the proxy, its virtual machine, the
    endpoint URL and the kind of the client are the same after every
    operation; a forwarding operation leaves the whole proxy as it was;
    a call of TransferURL only adds to the cache, and it leaves the
    thumbprint table as it was unless, connected to vCenter, it misses
    the cache and retrieves the virtual machine, its runtime host and
    the configuration of that host: then the table gets the SSL
    thumbprint of that host, under the host of the URL the call
    returns. *)
Theorem operation_frame (o : Op) (w : World) :
  ManagedObjectReference_ (fm (run o w)) = ManagedObjectReference_ (fm w) /\
  vm (fm (run o w)) = vm (fm w) /\
  vim25.URL (c (fm (run o w))) = vim25.URL (c (fm w)) /\
  vim25.IsVC (c (fm (run o w))) = vim25.IsVC (c (fm w)) /\
  match o with
  | OpFile _ => fm (run o w) = fm w
  | OpTransferURL u =>
      hosts (fm w) ⊆ hosts (fm (run o w)) /\
      (vim25.thumbprints (c (fm (run o w))) = vim25.thumbprints (c (fm w)) \/
       exists turl vm_ r1 hostref host r2 config turl',
         url_Parse u = inr turl /\
         vim25.IsVC (c (fm w)) = true /\
         hosts (fm w) !! url.Hostname (rewritten (fm w) turl) = None /\
         RoundTrip _ (retrieve_vm (fm w)) (remote w) = (inr vm_, r1) /\
         types.Host (mo.VirtualMachine.Runtime vm_) = Some hostref /\
         RoundTrip _ (retrieve_host hostref) r1 = (inr host, r2) /\
         mo.HostSystem.Config host = Some config /\
         fst (TransferURL u w) = (Some turl', None) /\
         vim25.thumbprints (c (fm (run o w))) =
           <[url.Host turl' :=
               types.SslThumbprint
                 (types.Config (mo.HostSystem.Summary host))]>
             (vim25.thumbprints (c (fm w)))) /\
      (forall turl vm_ r1 hostref host r2 config,
         url_Parse u = inr turl ->
         vim25.IsVC (c (fm w)) = true ->
         hosts (fm w) !! url.Hostname (rewritten (fm w) turl) = None ->
         RoundTrip _ (retrieve_vm (fm w)) (remote w) = (inr vm_, r1) ->
         types.Host (mo.VirtualMachine.Runtime vm_) = Some hostref ->
         RoundTrip _ (retrieve_host hostref) r1 = (inr host, r2) ->
         mo.HostSystem.Config host = Some config ->
         exists turl',
           fst (TransferURL u w) = (Some turl', None) /\
           vim25.thumbprints (c (fm (run o w))) =
             <[url.Host turl' :=
                 types.SslThumbprint
                   (types.Config (mo.HostSystem.Summary host))]>
               (vim25.thumbprints (c (fm w))))
  end.
Proof.
  destruct o as [f|u].
  - cbn. by rewrite (proj1 (run_file_calls f w)).
  - change (run (OpTransferURL u) w) with (snd (TransferURL u w)).
    destruct (TransferURL_frame u w (snd (TransferURL u w))
                (fst (TransferURL u w)))
      as (Hr & Hvm & Hu & Hvc & _); [by destruct (TransferURL u w)|].
    repeat match goal with |- _ /\ _ => split end; try done.
    + apply TransferURL_hosts_grow.
    + apply TransferURL_registers.
    + intros turl vm_ r1 hostref host r2 config
        Hp Hvc' Hmiss Hvm' Href Hhost Hcfg.
      rewrite (TransferURL_resolved u turl w vm_ r1 hostref host r2 config
                 Hp Hvc' Hmiss Hvm' Href Hhost Hcfg). cbn.
      eexists. split; [reflexivity|].
      by rewrite (proj2 (proj2 (cached_frame _ config (fm w)))).
Qed.

End Frame.

(** ** Sequences of calls *)

Section Sequences.

Context `{E : Env}.

Lemma run_frame (o : Op) (w : World) :
  ManagedObjectReference_ (fm (run o w)) = ManagedObjectReference_ (fm w) /\
  vm (fm (run o w)) = vm (fm w) /\
  vim25.URL (c (fm (run o w))) = vim25.URL (c (fm w)) /\
  vim25.IsVC (c (fm (run o w))) = vim25.IsVC (c (fm w)) /\
  calls w `prefix_of` calls (run o w).
Proof.
  destruct o as [f|u]; cbn.
  - destruct (run_file_calls f w) as [Hfm (k & Hk & _)].
    rewrite Hfm, Hk. repeat split. by exists [k].
  - destruct (TransferURL u w) as [res w'] eqn:Heq. cbn.
    destruct (TransferURL_frame u w w' res Heq) as (Hr & Hvm & Hu & Hvc & _).
    repeat split; try done.
    pose proof (TransferURL_calls_grow u w) as Hpre.
    by rewrite Heq in Hpre.
Qed.

Lemma run_all_keeps (os : list Op) (w : World) :
  ManagedObjectReference_ (fm (run_all os w)) = ManagedObjectReference_ (fm w) /\
  vm (fm (run_all os w)) = vm (fm w) /\
  vim25.URL (c (fm (run_all os w))) = vim25.URL (c (fm w)) /\
  vim25.IsVC (c (fm (run_all os w))) = vim25.IsVC (c (fm w)) /\
  calls w `prefix_of` calls (run_all os w).
Proof.
  revert w. induction os as [|o os IH]; intros w; [done|].
  change (run_all (o :: os) w) with (run_all os (run o w)).
  destruct (run_frame o w) as (Hr & Hvm & Hu & Hvc & Hpre).
  destruct (IH (run o w)) as (Hr' & Hvm' & Hu' & Hvc' & Hpre').
  rewrite Hr', Hvm', Hu', Hvc'. repeat split; try done.
  by etrans.
Qed.

(** X9: whatever operations are run, in whatever order, the proxy keeps
    its reference and its virtual machine, the client keeps its endpoint
    URL and its kind, and the remote calls made before remain the
    beginning of the trace. *)
Theorem run_all_frame (os : list Op) (w : World) :
  ManagedObjectReference_ (fm (run_all os w)) = ManagedObjectReference_ (fm w) /\
  vm (fm (run_all os w)) = vm (fm w) /\
  vim25.URL (c (fm (run_all os w))) = vim25.URL (c (fm w)) /\
  vim25.IsVC (c (fm (run_all os w))) = vim25.IsVC (c (fm w)) /\
  calls w `prefix_of` calls (run_all os w).
Proof.
  destruct (run_all_keeps os w) as (Hr & Hvm & Hu & Hvc & Hpre).
  repeat split; assumption.
Qed.

Lemma rewritten_same_client (m m' : FileManager) (turl : url.URL) :
  vim25.URL (c m') = vim25.URL (c m) ->
  rewritten m' turl = rewritten m turl.
Proof. intros Hu. unfold rewritten. by rewrite Hu. Qed.

(** X10: once a hostname has a cache entry, every later call for a URL
    with that hostname, after any operations in between, is answered
    from the cache: it returns the cached address joined with the port
    of the URL, makes no remote call and changes nothing. *)
Theorem cached_serves_later (os : list Op) (w : World) (u : string)
    (turl : url.URL) (mname : string) :
  vim25.IsVC (c (fm w)) = true ->
  url_Parse u = inr turl ->
  hosts (fm w) !! url.Hostname (rewritten (fm w) turl) = Some mname ->
  TransferURL u (run_all os w) =
    ((Some (url.with_Host
              (net.JoinHostPort mname (url.Port (rewritten (fm w) turl)))
              (rewritten (fm w) turl)), None),
     run_all os w).
Proof.
  intros Hvc Hp Hhit.
  destruct (run_all_keeps os w) as (_ & _ & Hu & Hvc' & _).
  rewrite <- (rewritten_same_client (fm w) (fm (run_all os w)) turl Hu).
  apply TransferURL_hit; [done | by rewrite Hvc' |].
  rewrite (rewritten_same_client (fm w) (fm (run_all os w)) turl Hu).
  by apply (lookup_weaken _ _ _ _ Hhit), run_all_hosts_grow.
Qed.

(** X11: a call that resolves the host through its one management
    address answers the same call again by itself: the second call
    returns the same URL, makes no remote call and changes nothing. *)
Theorem TransferURL_again (u : string) (turl : url.URL) (w : World)
    (vm_ : mo.VirtualMachine.t) (r1 : Remote)
    (hostref : ManagedObjectReference) (host : mo.HostSystem.t)
    (r2 : Remote) (config : types.HostConfigInfo) (ip : IP) :
  url_Parse u = inr turl ->
  vim25.IsVC (c (fm w)) = true ->
  hosts (fm w) !! url.Hostname (rewritten (fm w) turl) = None ->
  RoundTrip _ (retrieve_vm (fm w)) (remote w) = (inr vm_, r1) ->
  types.Host (mo.VirtualMachine.Runtime vm_) = Some hostref ->
  RoundTrip _ (retrieve_host hostref) r1 = (inr host, r2) ->
  mo.HostSystem.Config host = Some config ->
  management_ips config = [ip] ->
  useGuestTransferIP = true ->
  TransferURL u (snd (TransferURL u w)) =
    (fst (TransferURL u w), snd (TransferURL u w)).
Proof.
  intros Hp Hvc Hmiss Hvm Href Hhost Hcfg Hips Hon.
  rewrite (TransferURL_resolved u turl w vm_ r1 hostref host r2 config
             Hp Hvc Hmiss Hvm Href Hhost Hcfg).
  unfold resolved_name, cached.
  rewrite (preferred_one config ip Hips Hon). cbn [fst snd].
  set (w1 := after _ _ _ w).
  assert (Hsame : rewritten (fm w1) turl = rewritten (fm w) turl)
    by reflexivity.
  rewrite (TransferURL_hit u turl w1 (IP_String ip) Hp).
  - by rewrite Hsame.
  - exact Hvc.
  - rewrite Hsame. cbn. apply lookup_insert_eq.
Qed.

(** X12: forwarding operations alone, however many, leave the proxy as
    it is, and make as many remote calls as there are operations, none
    of them a property retrieval. *)
Theorem run_all_file_operations (fs : list FileOp) (w : World) :
  fm (run_all (OpFile <$> fs) w) = fm w /\
  exists ks : list Call,
    calls (run_all (OpFile <$> fs) w) = (calls w ++ ks)%list /\
    length ks = length fs /\
    Forall (fun k => is_retrieval k = false) ks.
Proof.
  revert w. induction fs as [|f fs IH]; intros w.
  - split; [done|]. exists []. by rewrite app_nil_r.
  - change (run_all (OpFile <$> f :: fs) w)
      with (run_all (OpFile <$> fs) (run_file f w)).
    destruct (run_file_calls f w) as [Hfm (k & Hk & Hnot)].
    destruct (IH (run_file f w)) as [Hfm' (ks & Hks & Hlen & Hall)].
    split; [by rewrite Hfm', Hfm|].
    exists (k :: ks). rewrite Hks, Hk, <- app_assoc. cbn.
    repeat split; [by rewrite Hlen | by constructor].
Qed.

Lemma run_esx (o : Op) (w : World) :
  vim25.IsVC (c (fm w)) = false ->
  fm (run o w) = fm w /\
  exists ks : list Call,
    calls (run o w) = (calls w ++ ks)%list /\
    Forall (fun k => is_retrieval k = false) ks.
Proof.
  intros Hvc. destruct o as [f|u]; cbn.
  - destruct (run_file_calls f w) as [Hfm (k & Hk & Hnot)].
    split; [done|]. exists [k]. split; [done | by constructor].
  - destruct (url_Parse u) as [err|turl] eqn:Hp.
    + rewrite (TransferURL_parse_error u err w Hp). cbn.
      split; [done|]. exists []. by rewrite app_nil_r.
    + rewrite (TransferURL_esx u turl w Hp Hvc). cbn.
      split; [done|]. exists []. by rewrite app_nil_r.
Qed.

(** X13: connected to an ESX host, no sequence of operations changes
    the proxy, its cache or its client, and none of the remote calls it
    makes is a property retrieval: the calls of TransferURL stay
    local. *)
Theorem run_all_esx (os : list Op) (w : World) :
  vim25.IsVC (c (fm w)) = false ->
  fm (run_all os w) = fm w /\
  exists ks : list Call,
    calls (run_all os w) = (calls w ++ ks)%list /\
    Forall (fun k => is_retrieval k = false) ks.
Proof.
  revert w. induction os as [|o os IH]; intros w Hvc.
  - split; [done|]. exists []. by rewrite app_nil_r.
  - change (run_all (o :: os) w) with (run_all os (run o w)).
    destruct (run_esx o w Hvc) as [Hfm (ks & Hks & Hnot)].
    destruct (IH (run o w)) as [Hfm' (ks' & Hks' & Hnot')];
      [by rewrite Hfm|].
    split; [by rewrite Hfm', Hfm|].
    exists (ks ++ ks')%list. rewrite Hks', Hks, <- app_assoc.
    split; [done | by apply Forall_app].
Qed.

End Sequences.

(** ** The proxy at work in the small deployment *)

Import Demo.

(** C4 fails as stated: a call that resolves the host leaves the
    client with a thumbprint it did not have, so more than the cache
    has changed. *)
Lemma TransferURL_changes_thumbprints :
  ~ only_cache_changed
      (w_vc vm1 (Some one_nic))
      (snd (TransferURL esx1_url (w_vc vm1 (Some one_nic)))).
Proof.
  intros (_ & _ & Hc).
  apply (f_equal (fun cl => vim25.thumbprints cl !! "10.0.0.7:443")) in Hc.
  vm_compute in Hc. discriminate Hc.
Qed.

Lemma TransferURL_placeholder_witness :
  url_Parse star_url = inr (transfer_url "*:443") /\
  TransferURL star_url w_esx =
    ((Some (transfer_url "esx9.example.com:8443"), None), w_esx) /\
  TransferURL star_url w_vc_star =
    ((Some (transfer_url "10.0.0.9:8443"), None), w_vc_star) /\
  TransferURL esx1_url w_cached =
    ((Some (transfer_url "10.0.0.7:443"), None), w_cached).
Proof.
  split; [reflexivity|].
  destruct (TransferURL_placeholder star_url (transfer_url "*:443") w_esx
              eq_refl) as [Hstar _].
  destruct (Hstar eq_refl) as [Hesx _].
  destruct (TransferURL_placeholder star_url (transfer_url "*:443") w_vc_star
              eq_refl) as [Hstar' _].
  destruct (Hstar' eq_refl) as (_ & Hhit & _).
  assert (Hne : url.Hostname (transfer_url "esx1.example.com:443") <> "*")
    by discriminate.
  destruct (TransferURL_placeholder esx1_url
              (transfer_url "esx1.example.com:443") w_cached eq_refl)
    as [_ Hother].
  destruct (Hother Hne) as (_ & Hhit' & _).
  split; [exact (Hesx eq_refl)|].
  split; [exact (Hhit "10.0.0.9" eq_refl eq_refl)|].
  exact (Hhit' "10.0.0.7" eq_refl eq_refl).
Defined.

Lemma TransferURL_cache_hit_witness :
  hosts (fm w_cached) !! "esx1.example.com" = Some "10.0.0.7" /\
  fst (TransferURL esx1_url w_cached) =
    (Some (transfer_url "10.0.0.7:443"), None) /\
  snd (TransferURL esx1_url w_cached) = w_cached.
Proof.
  split; [reflexivity|].
  destruct (TransferURL_cache_hit esx1_url (transfer_url "esx1.example.com:443")
              w_cached "10.0.0.7" eq_refl eq_refl eq_refl)
    as (Hres & Hw & _).
  split; [exact Hres | exact Hw].
Defined.

Lemma TransferURL_thumbprint_witness :
  fst (TransferURL esx1_url (w_vc vm1 (Some one_nic))) =
    (Some (transfer_url "10.0.0.7:443"), None) /\
  vim25.thumbprints
    (c (fm (snd (TransferURL esx1_url (w_vc vm1 (Some one_nic))))))
    !! "10.0.0.7:443" = Some "AA:BB:CC" /\
  fst (TransferURL esx1_url (w_vc vm1 (Some two_nics))) =
    (Some (transfer_url "esx1.example.com:443"), None) /\
  vim25.thumbprints
    (c (fm (snd (TransferURL esx1_url (w_vc vm1 (Some two_nics))))))
    !! "esx1.example.com:443" = Some "AA:BB:CC".
Proof.
  destruct (TransferURL_thumbprint esx1_url
              (transfer_url "esx1.example.com:443")
              (w_vc vm1 (Some one_nic)) vm1 (endpoint vm1 (Some one_nic))
              (MOR "HostSystem" "host-9") (host_with (Some one_nic))
              (endpoint vm1 (Some one_nic)) (config_of one_nic)
              eq_refl eq_refl eq_refl eq_refl eq_refl eq_refl eq_refl)
    as (name1 & turl1 & Hres1 & _ & _ & _ & _ & Hform1 & _ & _ & _ & Htp1).
  destruct (TransferURL_thumbprint esx1_url
              (transfer_url "esx1.example.com:443")
              (w_vc vm1 (Some two_nics)) vm1 (endpoint vm1 (Some two_nics))
              (MOR "HostSystem" "host-9") (host_with (Some two_nics))
              (endpoint vm1 (Some two_nics)) (config_of two_nics)
              eq_refl eq_refl eq_refl eq_refl eq_refl eq_refl eq_refl)
    as (name2 & turl2 & Hres2 & _ & _ & _ & _ & Hform2 & _ & _ & _ & Htp2).
  assert (H1 : turl1 = transfer_url "10.0.0.7:443").
  { vm_compute in Hres1. by injection Hres1 as <-. }
  assert (H2 : turl2 = transfer_url "esx1.example.com:443").
  { vm_compute in Hres2. by injection Hres2 as <-. }
  subst turl1 turl2.
  split; [exact Hres1|]. split; [exact Htp1|].
  split; [exact Hres2|]. exact Htp2.
Defined.

Lemma TransferURL_no_runtime_host_witness :
  fst (TransferURL esx1_url (w_vc vm_off None)) =
    (Some (transfer_url "esx1.example.com:443"), None) /\
  hosts (fm (snd (TransferURL esx1_url (w_vc vm_off None)))) = ∅.
Proof.
  destruct (TransferURL_no_runtime_host esx1_url
              (transfer_url "esx1.example.com:443")
              (w_vc vm_off None) vm_off (endpoint vm_off None)
              eq_refl eq_refl eq_refl eq_refl eq_refl)
    as (Hres & Hhosts & _).
  split; [exact Hres | exact Hhosts].
Defined.

Lemma TransferURL_host_config_nil_witness :
  fst (TransferURL esx1_url (w_vc vm1 None)) =
    (None,
     Some (Errorf
             "guest TransferURL failed for vm %q (%s): host %q (%s) config==nil, connectionState==%s"
             [ ArgString "web01"; ArgRef (MOR "VirtualMachine" "vm-12");
               ArgString "esx1.example.com"; ArgRef (MOR "HostSystem" "host-9");
               ArgString "connected" ])) /\
  hosts (fm (snd (TransferURL esx1_url (w_vc vm1 None)))) = ∅.
Proof.
  destruct (TransferURL_host_config_nil esx1_url
              (transfer_url "esx1.example.com:443")
              (w_vc vm1 None) vm1 (endpoint vm1 None)
              (MOR "HostSystem" "host-9") (host_with None) (endpoint vm1 None)
              eq_refl eq_refl eq_refl eq_refl eq_refl eq_refl eq_refl)
    as (Hres & Hhosts & _).
  split; [exact Hres | exact Hhosts].
Defined.

Lemma TransferURL_management_ip_witness :
  fst (TransferURL esx1_url (w_vc vm1 (Some one_nic))) =
    (Some (transfer_url "10.0.0.7:443"), None) /\
  hosts (fm (snd (TransferURL esx1_url (w_vc vm1 (Some one_nic))))) =
    {[ "esx1.example.com" := "10.0.0.7" ]}.
Proof.
  destruct (TransferURL_management_ip esx1_url
              (transfer_url "esx1.example.com:443")
              (w_vc vm1 (Some one_nic)) vm1 (endpoint vm1 (Some one_nic))
              (MOR "HostSystem" "host-9") (host_with (Some one_nic))
              (endpoint vm1 (Some one_nic))
              (config_of one_nic)
              eq_refl eq_refl eq_refl eq_refl eq_refl eq_refl eq_refl)
    as [_ Hone].
  destruct (Hone "10.0.0.7" eq_refl eq_refl) as (Hres & Hhosts & _).
  split; [exact Hres | exact Hhosts].
Defined.

Lemma cache_never_invalidated_witness :
  hosts (fm w_cached) !! "esx1.example.com" = Some "10.0.0.7" /\
  hosts (fm (run_all [ OpTransferURL esx1_url;
                       OpFile (OpDeleteFile "root:secret" "/tmp/upload");
                       OpTransferURL "https://esx2.example.com:443/guestFile?id=2" ]
               w_cached))
    !! "esx1.example.com" = Some "10.0.0.7".
Proof.
  split; [reflexivity|].
  exact (cache_never_invalidated _ w_cached "esx1.example.com" "10.0.0.7"
           eq_refl).
Defined.

(** With two management addresses the inventory name stays, and so it
    does with one address when the preference is switched off. *)
Example TransferURL_two_management_ips :
  let r := TransferURL esx1_url (w_vc vm1 (Some two_nics)) in
  fst r = (Some (transfer_url "esx1.example.com:443"), None) /\
  hosts (fm (snd r)) = ∅ /\
  vim25.thumbprints (c (fm (snd r))) = {[ "esx1.example.com:443" := "AA:BB:CC" ]}.
Proof. vm_compute. repeat split. Qed.

Example TransferURL_preference_off :
  let r := @TransferURL payloads env_off esx1_url (w_vc_off (Some one_nic)) in
  fst r = (Some (transfer_url "esx1.example.com:443"), None) /\
  hosts (fm (snd r)) = ∅ /\
  vim25.thumbprints (c (fm (snd r))) = {[ "esx1.example.com:443" := "AA:BB:CC" ]}.
Proof. vm_compute. repeat split. Qed.

(** A second call for the same host is answered from the cache. *)
Example TransferURL_second_call :
  let w1 := snd (TransferURL esx1_url (w_vc vm1 (Some one_nic))) in
  let r := TransferURL esx1_url w1 in
  url.Host <$> fst (fst r) = Some "10.0.0.7:443" /\
  length (calls w1) = 2 /\ length (calls (snd r)) = 2.
Proof. vm_compute. repeat split. Qed.

Example CreateTemporaryFile_down :
  fst (CreateTemporaryFile "root:secret" "up" ".bin" "/tmp"
         (world (manager true "vc.example.com:443" ∅)
            {| the_vm := inr vm1; the_host := inr (host_with None);
               down := true |}))
  = ("", Some fault).
Proof. reflexivity. Qed.

Example CreateTemporaryFile_up :
  fst (CreateTemporaryFile "root:secret" "up" ".bin" "/tmp"
         (w_vc vm1 None))
  = ("/tmp/upfile.bin", None).
Proof. reflexivity. Qed.

(** ** The further properties at work in the small deployment *)

Lemma TransferURL_error_origin_witness :
  fst (TransferURL esx1_url (w_vc vm1 None)) =
    (None, Some (config_nil_error vm1 (host_with None))) /\
  (url_Parse esx1_url = inl (config_nil_error vm1 (host_with None)) \/
   (exists r1,
      RoundTrip _ (retrieve_vm (fm (w_vc vm1 None))) (remote (w_vc vm1 None))
        = (inl (config_nil_error vm1 (host_with None)), r1)) \/
   (exists vm_ r1 hostref,
      RoundTrip _ (retrieve_vm (fm (w_vc vm1 None))) (remote (w_vc vm1 None))
        = (inr vm_, r1) /\
      types.Host (mo.VirtualMachine.Runtime vm_) = Some hostref /\
      ((exists r2,
          RoundTrip _ (retrieve_host hostref) r1
            = (inl (config_nil_error vm1 (host_with None)), r2)) \/
       (exists host r2,
          RoundTrip _ (retrieve_host hostref) r1 = (inr host, r2) /\
          mo.HostSystem.Config host = None /\
          config_nil_error vm1 (host_with None)
            = config_nil_error vm_ host)))).
Proof.
  split; [reflexivity|].
  exact (TransferURL_error_origin esx1_url (w_vc vm1 None)
           (config_nil_error vm1 (host_with None)) eq_refl).
Defined.

Lemma TransferURL_caches_iff_witness :
  is_Some (hosts (fm (snd (TransferURL esx1_url (w_vc vm1 (Some one_nic)))))
             !! "esx1.example.com").
Proof.
  apply (proj2 (TransferURL_caches_iff esx1_url
                  (transfer_url "esx1.example.com:443")
                  (w_vc vm1 (Some one_nic)) vm1 (endpoint vm1 (Some one_nic))
                  (MOR "HostSystem" "host-9") (host_with (Some one_nic))
                  (endpoint vm1 (Some one_nic)) (config_of one_nic)
                  eq_refl eq_refl eq_refl eq_refl eq_refl eq_refl eq_refl)).
  split; [reflexivity | discriminate].
Defined.

Lemma TransferURL_keeps_port_witness :
  fst (TransferURL esx1_url w_cached) =
    (Some (transfer_url "10.0.0.7:443"), None) /\
  url.Port (transfer_url "10.0.0.7:443") = "443".
Proof.
  split; [reflexivity|].
  destruct (TransferURL_keeps_port esx1_url
              (transfer_url "esx1.example.com:443")
              (transfer_url "10.0.0.7:443") w_cached eq_refl eq_refl)
    as (_ & _ & Hport).
  apply Hport. discriminate.
Defined.

Lemma TransferURL_hit_hostname_witness :
  bracketed_plain "10.0.0.7" = false /\
  url.Hostname (transfer_url "10.0.0.7:443") = "10.0.0.7".
Proof.
  split; [reflexivity|].
  exact (TransferURL_hit_hostname esx1_url
           (transfer_url "esx1.example.com:443")
           (transfer_url "10.0.0.7:443") w_cached "10.0.0.7"
           eq_refl eq_refl eq_refl eq_refl eq_refl).
Defined.

Lemma TransferURL_resolved_hostname_witness :
  fst (TransferURL esx1_url (w_vc vm1 (Some one_nic))) =
    (Some (transfer_url "10.0.0.7:443"), None) /\
  url.Hostname (transfer_url "10.0.0.7:443") = "10.0.0.7".
Proof.
  split; [reflexivity|].
  exact (TransferURL_resolved_hostname esx1_url
           (transfer_url "esx1.example.com:443")
           (transfer_url "10.0.0.7:443")
           (w_vc vm1 (Some one_nic)) vm1 (endpoint vm1 (Some one_nic))
           (MOR "HostSystem" "host-9") (host_with (Some one_nic))
           (endpoint vm1 (Some one_nic)) (config_of one_nic)
           eq_refl eq_refl eq_refl eq_refl eq_refl eq_refl eq_refl
           eq_refl eq_refl).
Defined.

Lemma cached_serves_later_witness :
  hosts (fm w_cached) !! "esx1.example.com" = Some "10.0.0.7" /\
  TransferURL "https://esx1.example.com:902/guestFile?id=1"
    (run_all in_between w_cached) =
    ((Some (transfer_url "10.0.0.7:902"), None), run_all in_between w_cached).
Proof.
  split; [reflexivity|].
  exact (cached_serves_later in_between w_cached
           "https://esx1.example.com:902/guestFile?id=1"
           (transfer_url "esx1.example.com:902") "10.0.0.7"
           eq_refl eq_refl eq_refl).
Defined.

Lemma TransferURL_again_witness :
  fst (TransferURL esx1_url (w_vc vm1 (Some one_nic))) =
    (Some (transfer_url "10.0.0.7:443"), None) /\
  TransferURL esx1_url (snd (TransferURL esx1_url (w_vc vm1 (Some one_nic)))) =
    (fst (TransferURL esx1_url (w_vc vm1 (Some one_nic))),
     snd (TransferURL esx1_url (w_vc vm1 (Some one_nic)))).
Proof.
  split; [reflexivity|].
  exact (TransferURL_again esx1_url (transfer_url "esx1.example.com:443")
           (w_vc vm1 (Some one_nic)) vm1 (endpoint vm1 (Some one_nic))
           (MOR "HostSystem" "host-9") (host_with (Some one_nic))
           (endpoint vm1 (Some one_nic)) (config_of one_nic) "10.0.0.7"
           eq_refl eq_refl eq_refl eq_refl eq_refl eq_refl eq_refl
           eq_refl eq_refl).
Defined.

Lemma run_all_esx_witness :
  vim25.IsVC (c (fm w_esx)) = false /\
  fm (run_all [ OpTransferURL star_url;
                OpFile (OpDeleteFile "root:secret" "/tmp/upload");
                OpTransferURL esx1_url ] w_esx) = fm w_esx.
Proof.
  split; [reflexivity|].
  exact (proj1 (run_all_esx _ w_esx eq_refl)).
Defined.

(** A URL without a port comes back with a colon after the host, and a
    management address with colons comes back in square brackets. *)
Example TransferURL_no_port :
  url.Host <$> fst (fst (TransferURL "https://esx1.example.com/guestFile?id=1"
                           w_cached))
  = Some "10.0.0.7:".
Proof. reflexivity. Qed.

Example TransferURL_ipv6 :
  let r := TransferURL esx1_url
             (w_vc vm1 (Some [("management", "fe80::7")])) in
  url.Host <$> fst (fst r) = Some "[fe80::7]:443" /\
  hosts (fm (snd r)) = {[ "esx1.example.com" := "fe80::7" ]}.
Proof. vm_compute. repeat split. Qed.

(** The request of a forwarding operation carries the reference stored
    in the proxy and the reference of its virtual machine. *)
Example DeleteFile_request :
  calls (snd (DeleteFile "root:secret" "/tmp/upload/old" w_cached)) =
    [ Invoked (methods.DeleteFileInGuest
                 (MOR "GuestFileManager" "guestOperationsFileManager")
                 (MOR "VirtualMachine" "vm-12")
                 "root:secret" "/tmp/upload/old") ].
Proof. reflexivity. Qed.

Example InitiateFileTransferToGuest_request :
  InitiateFileTransferToGuest "root:secret" "/tmp/upload/new" "0644" 2048
    true w_cached =
    (("https://*:443/guestFile?id=2", None),
     {| fm := fm w_cached; remote := remote w_cached;
        calls := [ Invoked (methods.InitiateFileTransferToGuest
                              (MOR "GuestFileManager"
                                 "guestOperationsFileManager")
                              (MOR "VirtualMachine" "vm-12")
                              "root:secret" "/tmp/upload/new" "0644" 2048
                              true) ] |}).
Proof. reflexivity. Qed.
